(** * The decision engine of the URL scam detection service (main.py)

    A shallow embedding of the request path of [main.py]: domain
    normalisation ([extract_base_domain]), the trusted-domain check
    ([is_trusted_domain]), the three-level threshold classification
    ([classify_proba]), the model path ([model_predict]) and the
    [/predict] handler ([predict_url]), followed by the properties the
    specification states about them.

    Conventions of the embedding.
    - A Python [str] is a Rocq [string], one [ascii] per code point, so the
      model covers the code points U+0000 to U+00FF.  On this range
      [str.lower], [str.strip] and [str.isspace] are the tables written
      out below.
    - A Python [float] is an IEEE 754 binary64 value, taken as a
      [spec_float]; comparisons are [SFleb] and [SFltb].
    - A call that can raise returns a [result]; the handler threads the
      state of the scorer and the audit log through a state-and-error
      monad. *)

From Stdlib Require Import ZArith NArith String Ascii List Bool Lia.
From Stdlib Require Import Floats.SpecFloat.
From stdpp Require Import gmap strings.

Local Open Scope string_scope.
Local Open Scope Z_scope.

(** ** Exceptions and fallible calls *)

(** A raised exception: its class name and its message.  Every exception
    of the model is a subclass of [Exception]. *)
Record exn := PyExc { exc_type : string; exc_msg : string }.

Inductive result (A : Type) : Type :=
| Ok (a : A)
| Raise (e : exn).
Arguments Ok {A} a.
Arguments Raise {A} e.

Definition rbind {A B} (r : result A) (k : A -> result B) : result B :=
  match r with
  | Ok a => k a
  | Raise e => Raise e
  end.

(** [try: body except Exception: handler]. *)
Definition try_except {A} (body : result A) (handler : exn -> result A) : result A :=
  match body with
  | Ok a => Ok a
  | Raise e => handler e
  end.

Declare Scope result_scope.
Delimit Scope result_scope with result.
Notation "'do' x <- r ; k" := (rbind r (fun x => k))
  (at level 10, x name, r at level 100, k at level 200) : result_scope.
Local Open Scope result_scope.

(** ** Python string built-ins *)

Module Py.

Definition code (c : ascii) : N := N_of_ascii c.

Definition in_range (lo hi : N) (c : ascii) : bool :=
  ((lo <=? code c) && (code c <=? hi))%N.

(** [c.isspace()] for a code point below 256. *)
Definition isspace (c : ascii) : bool :=
  in_range 9 13 c || in_range 28 32 c
  || (code c =? 133)%N || (code c =? 160)%N.

(** Code points with a lower-case mapping: A-Z, and in Latin-1
    U+00C0..U+00D6 and U+00D8..U+00DE; each maps 32 places up. *)
Definition lower_char (c : ascii) : ascii :=
  if in_range 65 90 c || in_range 192 214 c || in_range 216 222 c
  then ascii_of_N (code c + 32)
  else c.

(** [s.lower()] *)
Fixpoint lower (s : string) : string :=
  match s with
  | EmptyString => EmptyString
  | String c s' => String (lower_char c) (lower s')
  end.

(** [s[n:]] for [n >= 0] *)
Fixpoint slice_from (n : nat) (s : string) : string :=
  match n, s with
  | O, _ => s
  | S _, EmptyString => EmptyString
  | S n', String _ s' => slice_from n' s'
  end.

(** [s[:n]] for [n >= 0] *)
Fixpoint slice_to (n : nat) (s : string) : string :=
  match n, s with
  | O, _ => EmptyString
  | S _, EmptyString => EmptyString
  | S n', String c s' => String c (slice_to n' s')
  end.

(** [s[a:b]] for [0 <= a], [0 <= b] *)
Definition slice (a b : nat) (s : string) : string :=
  slice_from a (slice_to b s).

(** [s.startswith(p)] *)
Definition startswith (s p : string) : bool := String.prefix p s.

(** [s.endswith(p)] *)
Definition endswith (s p : string) : bool :=
  (String.length p <=? String.length s)%nat
  && String.eqb (slice_from (String.length s - String.length p) s) p.

(** [c in s] for a one-character [c] *)
Fixpoint contains (c : ascii) (s : string) : bool :=
  match s with
  | EmptyString => false
  | String d s' => Ascii.eqb c d || contains c s'
  end.

(** Position of the first [c] in [s] counted from [pos], or [-1]. *)
Fixpoint find_at (c : ascii) (s : string) (pos : Z) : Z :=
  match s with
  | EmptyString => -1
  | String d s' => if Ascii.eqb c d then pos else find_at c s' (pos + 1)
  end.

(** [s.find(c, start)] for [start >= 0] *)
Definition find (c : ascii) (s : string) (start : nat) : Z :=
  find_at c (slice_from start s) (Z.of_nat start).

(** [s.replace(c, "")] for a one-character [c] *)
Fixpoint remove (c : ascii) (s : string) : string :=
  match s with
  | EmptyString => EmptyString
  | String d s' => if Ascii.eqb c d then remove c s' else String d (remove c s')
  end.

(** Drop the longest prefix of characters satisfying [p]. *)
Fixpoint lstrip_by (p : ascii -> bool) (s : string) : string :=
  match s with
  | EmptyString => EmptyString
  | String c s' => if p c then lstrip_by p s' else s
  end.

(** Drop the longest suffix of characters satisfying [p]. *)
Fixpoint rstrip_by (p : ascii -> bool) (s : string) : string :=
  match s with
  | EmptyString => EmptyString
  | String c s' =>
      match rstrip_by p s' with
      | EmptyString => if p c then EmptyString else String c EmptyString
      | r => String c r
      end
  end.

(** [s.strip()]: white space removed at both ends. *)
Definition strip (s : string) : string :=
  rstrip_by isspace (lstrip_by isspace s).

(** Every character of [s] satisfies [p]. *)
Fixpoint all_chars (p : ascii -> bool) (s : string) : bool :=
  match s with
  | EmptyString => true
  | String c s' => p c && all_chars p s'
  end.

(** [s.isascii()]: every code point is below 128. *)
Definition isascii_char (c : ascii) : bool := (code c <? 128)%N.
Definition isascii (s : string) : bool := all_chars isascii_char s.

End Py.

(** ** Python floats *)

Definition float := spec_float.

(** [a <= b] and [a >= b] on floats; both are false when either side is
    a NaN. *)
Definition fle (a b : float) : bool := SFleb a b.
Definition fge (a b : float) : bool :=
  match SFcompare a b with
  | Some Gt | Some Eq => true
  | _ => false
  end.
Definition flt (a b : float) : bool := SFltb a b.

(** A decimal literal [n / d] with [n] and [d] small integers denotes the
    binary64 value nearest to the quotient, which is what the correctly
    rounded division of the two integers gives. *)
Definition decimal (n d : positive) : float :=
  SFdiv 53 1024 (S754_finite false n 0) (S754_finite false d 0).

Definition f_0_01 : float := Eval vm_compute in decimal 1 100.
Definition f_0_3  : float := Eval vm_compute in decimal 3 10.
Definition f_0_5  : float := Eval vm_compute in decimal 5 10.
Definition f_0_7  : float := Eval vm_compute in decimal 7 10.
Definition f_0_92 : float := Eval vm_compute in decimal 92 100.
Definition f_0_0  : float := S754_zero false.
Definition f_1_0  : float := Eval vm_compute in decimal 1 1.

(** ** urllib.parse.urlparse

    The part of [urlsplit] that decides the [netloc] attribute, for a
    [str] argument and the default [scheme=''], [allow_fragments=True].
    The program reads [netloc] only, so the text after the network
    location is kept whole in [remainder] instead of being cut into path,
    parameters, query and fragment. *)

Record ParseResult := mkParseResult {
  scheme : string;
  netloc : string;
  remainder : string
}.

(** What the interpreter decides outside this model.  When a network
    location contains both an opening and a closing square bracket, the
    library validates the bracketed host with [ipaddress] and a regular
    expression and raises [ValueError] when it is not an IPv6 or IPvFuture
    address; the rules differ between interpreter releases, and older
    releases do not validate at all.  [check_bracketed_netloc netloc] is
    the outcome of that validation.  For a network location that is not
    ASCII, [_checknetloc] normalises it with [unicodedata] (NFKC) and
    raises [ValueError] when the normal form holds one of [/ ? # @ :];
    [check_nfkc netloc] is the outcome of that comparison.  Nothing below
    depends on how either answers. *)
Class Interpreter := {
  check_bracketed_netloc : string -> result unit;
  check_nfkc : string -> result unit
}.

(** An interpreter that performs no validation of bracketed hosts and
    whose normalisation check passes. *)
Definition no_bracket_validation : Interpreter :=
  {| check_bracketed_netloc := fun _ => Ok tt;
     check_nfkc := fun _ => Ok tt |}.

Module urllib.

(** [_WHATWG_C0_CONTROL_OR_SPACE]: U+0000 to U+0020. *)
Definition c0_control_or_space (c : ascii) : bool := (Py.code c <=? 32)%N.

(** [c.isascii() and c.isalpha()] *)
Definition ascii_alpha (c : ascii) : bool :=
  Py.in_range 65 90 c || Py.in_range 97 122 c.

(** [c in scheme_chars]: letters, digits, [+], [-] and [.]. *)
Definition scheme_char (c : ascii) : bool :=
  ascii_alpha c || Py.in_range 48 57 c
  || Ascii.eqb c "+" || Ascii.eqb c "-" || Ascii.eqb c ".".

Definition first_char_is (p : ascii -> bool) (s : string) : bool :=
  match s with
  | EmptyString => false
  | String c _ => p c
  end.

(** [_splitnetloc(url, start)]: the earliest of the delimiters [/], [?]
    and [#] at or after [start] ends the network location. *)
Definition splitnetloc (url : string) (start : nat) : string * string :=
  let delim :=
    fold_left
      (fun delim c =>
         let wdelim := Py.find c url start in
         if wdelim >=? 0 then Z.min delim wdelim else delim)
      ["/"; "?"; "#"]%char
      (Z.of_nat (String.length url)) in
  (Py.slice start (Z.to_nat delim) url, Py.slice_from (Z.to_nat delim) url).

Definition invalid_ipv6 : exn := PyExc "ValueError" "Invalid IPv6 URL".

(** [_checknetloc(netloc)]: an empty or ASCII network location passes;
    any other one goes through the normalisation check. *)
Definition checknetloc {Itp : Interpreter} (netloc : string) : result unit :=
  if String.eqb netloc "" || Py.isascii netloc then Ok tt
  else check_nfkc netloc.

(** [urlsplit(url)]: leading control characters and spaces are dropped,
    tabs and line breaks are removed, a scheme is cut off when the text
    before the first colon is one, a network location is read when the
    rest begins with two slashes, and [_checknetloc] has the last word. *)
Definition urlsplit {Itp : Interpreter} (url : string) : result ParseResult :=
  let url := Py.lstrip_by c0_control_or_space url in
  let url := Py.remove "010" (Py.remove "013" (Py.remove "009" url)) in
  let i := Py.find ":" url 0 in
  let '(scheme, url) :=
    if (i >? 0) && first_char_is ascii_alpha url
       && Py.all_chars scheme_char (Py.slice_to (Z.to_nat i) url)
    then (Py.lower (Py.slice_to (Z.to_nat i) url),
          Py.slice_from (Z.to_nat (i + 1)) url)
    else ("", url) in
  do located <-
    (if String.eqb (Py.slice_to 2 url) "//" then
       let '(netloc, url) := splitnetloc url 2 in
       let has_open := Py.contains "[" netloc in
       let has_close := Py.contains "]" netloc in
       if (has_open && negb has_close) || (has_close && negb has_open)
       then Raise invalid_ipv6
       else
         do _ <- (if has_open && has_close
                  then check_bracketed_netloc netloc
                  else Ok tt);
         Ok (netloc, url)
     else Ok ("", url));
  let '(netloc, url) := located : string * string in
  do _ <- checknetloc netloc;
  Ok (mkParseResult scheme netloc url).

(** [urlparse(url)]: [urlsplit] followed by the separation of the path
    parameters, which leaves [scheme] and [netloc] as they are. *)
Definition urlparse {Itp : Interpreter} (url : string) : result ParseResult :=
  urlsplit url.

End urllib.

(** ** The program *)

(** [TRUSTED_DOMAINS], as written in the source. *)
Definition TRUSTED_DOMAINS : gset string :=
  {[ "google.com";
     "https://translate.google.com/";
     "youtube.com";
     "facebook.com";
     "twitter.com";
     "instagram.com";
     "linkedin.com";
     "microsoft.com";
     "apple.com";
     "amazon.com";
     "netflix.com";
     "github.com";
     "paypal.com";
     "wikipedia.org";
     "whatsapp.com";
     "imamu.edu.sa";
     "edu.sa";
     "gov.sa";
     "moe.gov.sa";
     "kfupm.edu.sa";
     "kaust.edu.sa" ]}.

Section Resolver.
Context {Itp : Interpreter}.

(** [extract_base_domain(url)] *)
Definition extract_base_domain (url : string) : result string :=
  try_except
    (do parsed <- urllib.urlparse url;
     let domain := Py.lower (netloc parsed) in
     let domain :=
       if Py.startswith domain "www." then Py.slice_from 4 domain else domain in
     Ok domain)
    (fun _ => Ok (Py.lower url)).

(** [is_trusted_domain(url)], with the set it consults as a parameter. *)
Definition is_trusted_domain_in (trusted_domains : gset string)
    (url : string) : result bool :=
  do domain <- extract_base_domain url;
  if bool_decide (domain ∈ trusted_domains) then Ok true
  else if existsb
            (fun trusted => Py.startswith trusted "." && Py.endswith domain trusted)
            (elements trusted_domains)
  then Ok true
  else Ok false.

(** [is_trusted_domain(url)] of the program: the set is [TRUSTED_DOMAINS]. *)
Definition is_trusted_domain (url : string) : result bool :=
  is_trusted_domain_in TRUSTED_DOMAINS url.

End Resolver.

(** The artifacts loaded when the module is imported.  The pickled files
    are not part of the sources: the two thresholds and the version label
    are the fields of [Config], the vectorizer and the classifier together
    are a [Scorer]. *)
Class Config := {
  T_SAFE : float;
  T_MAL : float;
  MODEL_VERSION : string
}.

(** [predict_proba url st] stands for the two statements
    [X = vectorizer.transform([url])] and
    [float(model.predict_proba(X)[0][1])]: the call returns a float or
    raises, and may change whatever state the loaded objects carry. *)
Class Scorer := {
  scorer_state : Type;
  predict_proba : string -> scorer_state -> result float * scorer_state
}.

Record Thresholds := mkThresholds { safe : float; malicious : float }.

(** The dictionary returned to the caller. *)
Module Response.
Record t := mk {
  url : string;
  domain : string;
  trusted_domain : bool;
  prediction : string;
  probability_malicious : float;
  thresholds : Thresholds;
  model_version : string;
  source : string;
  timestamp : string
}.
End Response.

(** The dictionary written to the log: one entry per line of
    [realtime_logs.jsonl].  The JSON text of an entry is not modelled. *)
Module LogEntry.
Record t := mk {
  timestamp : string;
  client_ip : option string;
  url : string;
  domain : string;
  prediction : string;
  probability_malicious : float;
  trusted_domain : bool;
  thresholds : Thresholds;
  model_version : string;
  source : string
}.
End LogEntry.

(** The request body ([URLInput]) and what the handler reads of the
    request: the host of the client address, when there is one. *)
Record URLInput := mkURLInput { url : string }.
Record Request := mkRequest { client : option string }.

Section Classifier.
Context {Cfg : Config}.

(** [classify_proba(proba)] *)
Definition classify_proba (proba : float) : string :=
  if fge proba T_MAL then "malicious"
  else if fle proba T_SAFE then "benign"
  else "suspicious".

End Classifier.

Section Engine.
Context {Itp : Interpreter} {Cfg : Config} {Sc : Scorer}.

(** What a request can change: the state of the loaded model, the log
    file, and [scorer_calls], the arguments of the calls made to the
    scorer so far (kept for the statements, as a call-recording mock
    would). *)
Record World := mkWorld {
  model_state : scorer_state;
  scorer_calls : list string;
  log_file : list LogEntry.t
}.

(** Computations of the handler: they read and change the world and
    either return or raise. *)
Definition M (A : Type) : Type := World -> result A * World.

Definition ret {A} (a : A) : M A := fun w => (Ok a, w).

Definition bind {A B} (m : M A) (k : A -> M B) : M B :=
  fun w =>
    match m w with
    | (Ok a, w') => k a w'
    | (Raise e, w') => (Raise e, w')
    end.

Definition lift {A} (r : result A) : M A := fun w => (r, w).

(** One call of the scorer. *)
Definition score (url : string) : M float :=
  fun w =>
    let '(r, st) := predict_proba url (model_state w) in
    (r, mkWorld st (scorer_calls w ++ [url]) (log_file w)).

(** [logger.info(json.dumps(entry))]: the entry is appended to the log.
    The logging module reports a failing handler on stderr and does
    not raise. *)
Definition logger_info (entry : LogEntry.t) : M unit :=
  fun w => (Ok tt, mkWorld (model_state w) (scorer_calls w) (log_file w ++ [entry])).

End Engine.

Arguments World {_}.
Arguments M {_} A.

Declare Scope handler_scope.
Delimit Scope handler_scope with handler.
Notation "'do' x <- m ; k" := (bind m (fun x => k))
  (at level 10, x name, m at level 100, k at level 200) : handler_scope.
Notation "'do' ' p <- m ; k" := (bind m (fun p => k))
  (at level 10, p pattern, m at level 100, k at level 200) : handler_scope.

Section Handler.
Context {Itp : Interpreter} {Cfg : Config} {Sc : Scorer}.
Local Open Scope handler_scope.

(** [model_predict(url)] *)
Definition model_predict (url : string) : M (string * float) :=
  do proba_malicious <- score url;
  let label := classify_proba proba_malicious in
  ret (label, proba_malicious).

(** [predict_url(data, request)].  [utcnow] is the text
    [datetime.utcnow().isoformat()] gives when the handler reads the
    clock. *)
Definition predict_url (data : URLInput) (request : Request)
    (utcnow : string) : M Response.t :=
  let url := Py.strip (url data) in
  do domain <- lift (extract_base_domain url);
  let client_host := client request in
  let now := utcnow +:+ "Z" in
  do trusted <- lift (is_trusted_domain url);
  do '(label, proba_malicious, source) <-
    (if trusted : bool
     then ret ("benign", f_0_01, "whitelist")
     else
       do '(label, proba_malicious) <- model_predict url;
       ret (label, proba_malicious, "model"));
  let response :=
    Response.mk url domain trusted label proba_malicious
      (mkThresholds T_SAFE T_MAL) MODEL_VERSION source now in
  let log_entry :=
    LogEntry.mk now client_host url domain label proba_malicious trusted
      (mkThresholds T_SAFE T_MAL) MODEL_VERSION source in
  do _ <- logger_info log_entry;
  ret response.

End Handler.

(** The dictionary [root()] returns. *)
Module RootResponse.
Record t := mk {
  message : string;
  model_version : string;
  thresholds : Thresholds
}.
End RootResponse.

Section Service.
Context {Itp : Interpreter} {Cfg : Config} {Sc : Scorer}.

(** [root()] *)
Definition root : RootResponse.t :=
  RootResponse.mk "URL Scam Detection API is running" MODEL_VERSION
    (mkThresholds T_SAFE T_MAL).

(** Requests handled one after another, each with the body, the request
    and the clock reading of its call.  [predict_url] contains no
    [await], so the event loop runs a call to its end before it starts
    the next one; a call that raises leaves the world as it was when the
    exception was raised and the service goes on. *)
Fixpoint serve (calls : list (URLInput * Request * string)) (w : World)
    : list (result Response.t) * World :=
  match calls with
  | [] => ([], w)
  | (data, request, utcnow) :: calls' =>
      let '(r, w1) := predict_url data request utcnow w in
      let '(rs, w2) := serve calls' w1 in
      (r :: rs, w2)
  end.

End Service.

(** ** Concrete configurations used in the examples *)

(** Thresholds [safe = 0.3], [malicious = 0.7]. *)
Definition config_03_07 : Config :=
  {| T_SAFE := f_0_3; T_MAL := f_0_7; MODEL_VERSION := "v2.0" |}.

(** A scorer that answers [p] for every URL and counts its calls. *)
Definition counting_scorer (p : float) : Scorer :=
  {| scorer_state := nat;
     predict_proba := fun _ n => (Ok p, S n) |}.

(** A scorer that raises on every URL. *)
Definition failing_scorer (e : exn) : Scorer :=
  {| scorer_state := unit;
     predict_proba := fun _ st => (Raise e, st) |}.

(** ** Vocabulary of the statements *)

(** The severity order of the labels: benign < suspicious < malicious. *)
Definition severity (label : string) : option nat :=
  if String.eqb label "benign" then Some 0%nat
  else if String.eqb label "suspicious" then Some 1%nat
  else if String.eqb label "malicious" then Some 2%nat
  else None.

(** A single leading "www." removed, as [extract_base_domain] does. *)
Definition without_www (domain : string) : string :=
  if Py.startswith domain "www." then Py.slice_from 4 domain else domain.

(** [s.rpartition(c)[2]]: what follows the last [c], or [s] without [c]. *)
Fixpoint after_last (c : ascii) (s : string) : string :=
  match s with
  | EmptyString => EmptyString
  | String a s' =>
      if Py.contains c s' then after_last c s'
      else if Ascii.eqb c a then s' else s
  end.

(** [s.partition(c)[0]]: what precedes the first [c], or [s] without [c]. *)
Fixpoint before_first (c : ascii) (s : string) : string :=
  match s with
  | EmptyString => EmptyString
  | String a s' => if Ascii.eqb c a then EmptyString else String a (before_first c s')
  end.

(** [s.partition(c)[2]]: what follows the first [c], or nothing. *)
Fixpoint after_first (c : ascii) (s : string) : string :=
  match s with
  | EmptyString => EmptyString
  | String a s' => if Ascii.eqb c a then s' else after_first c s'
  end.

(** The host component of a network location, as the parse result reads
    it for its [hostname] attribute: user information up to the last "@"
    is dropped, then the host is what stands between square brackets, or
    else what precedes the first colon. *)
Definition host_component (netloc : string) : string :=
  let hostinfo := after_last "@" netloc in
  if Py.contains "[" hostinfo
  then before_first "]" (after_first "[" hostinfo)
  else before_first ":" hostinfo.

(** A network location that is a host and nothing else: no user
    information, no port, no bracket. *)
Definition bare_host (netloc : string) : bool :=
  negb (Py.contains "@" netloc) && negb (Py.contains ":" netloc)
  && negb (Py.contains "[" netloc).

(** A string that is empty or begins with a character outside [p]. *)
Definition lstripped (p : ascii -> bool) (s : string) : Prop :=
  match s with
  | EmptyString => True
  | String c _ => p c = false
  end.

(** The two dictionaries [predict_url] builds from its local variables. *)
Definition response_of {Cfg : Config} (url domain : string) (trusted : bool)
    (label : string) (proba : float) (source now : string) : Response.t :=
  Response.mk url domain trusted label proba
    (mkThresholds T_SAFE T_MAL) MODEL_VERSION source now.

Definition log_entry_of {Cfg : Config} (client_host : option string)
    (url domain : string) (trusted : bool) (label : string) (proba : float)
    (source now : string) : LogEntry.t :=
  LogEntry.mk now client_host url domain label proba trusted
    (mkThresholds T_SAFE T_MAL) MODEL_VERSION source.

(** Two responses that agree on every field but the timestamp. *)
Definition same_decision (a b : Response.t) : Prop :=
  Response.url a = Response.url b
  /\ Response.domain a = Response.domain b
  /\ Response.trusted_domain a = Response.trusted_domain b
  /\ Response.prediction a = Response.prediction b
  /\ Response.probability_malicious a = Response.probability_malicious b
  /\ Response.thresholds a = Response.thresholds b
  /\ Response.model_version a = Response.model_version b
  /\ Response.source a = Response.source b.

(** Two outcomes of the handler that agree up to the timestamp: the same
    exception, or responses that are the same decision. *)
Definition same_outcome (r1 r2 : result Response.t) : Prop :=
  match r1, r2 with
  | Ok a, Ok b => same_decision a b
  | Raise e1, Raise e2 => e1 = e2
  | _, _ => False
  end.

(** A scorer whose answer for a URL does not depend on its state. *)
Definition deterministic (Sc : Scorer) : Prop :=
  forall (url : string) (st1 st2 : scorer_state),
    fst (predict_proba url st1) = fst (predict_proba url st2).

(** The delimiters that end a network location. *)
Definition is_delim (c : ascii) : bool :=
  Ascii.eqb "/" c || Ascii.eqb "?" c || Ascii.eqb "#" c.

(** The longest prefix of [s] without a delimiter, and what follows it. *)
Fixpoint until_delim (s : string) : string :=
  match s with
  | EmptyString => EmptyString
  | String c s' => if is_delim c then EmptyString else String c (until_delim s')
  end.

Fixpoint from_delim (s : string) : string :=
  match s with
  | EmptyString => EmptyString
  | String c s' => if is_delim c then s else from_delim s'
  end.

(** A character that can stand in a network location without ending it
    and without being touched by the parser: no control character or
    space, no delimiter, no square bracket. *)
Definition netloc_char (c : ascii) : bool :=
  negb (urllib.c0_control_or_space c) && negb (is_delim c)
  && negb (Ascii.eqb "[" c) && negb (Ascii.eqb "]" c).

(** Text that can follow a network location: nothing, or a path, query or
    fragment introduced by its delimiter. *)
Definition after_netloc (rest : string) : bool :=
  match rest with
  | EmptyString => true
  | String c _ => is_delim c
  end.

(** The last character of [s] satisfies [p]. *)
Fixpoint last_char_is (p : ascii -> bool) (s : string) : bool :=
  match s with
  | EmptyString => false
  | String c EmptyString => p c
  | String _ s' => last_char_is p s'
  end.

Definition is_nan (f : float) : bool :=
  match f with
  | S754_nan => true
  | _ => false
  end.

(** The log entry that records a response for a client. *)
Definition audit_of (client_host : option string) (resp : Response.t)
    : LogEntry.t :=
  LogEntry.mk (Response.timestamp resp) client_host (Response.url resp)
    (Response.domain resp) (Response.prediction resp)
    (Response.probability_malicious resp) (Response.trusted_domain resp)
    (Response.thresholds resp) (Response.model_version resp)
    (Response.source resp).

(** The log entries of a run of the service: one for each call that
    returned a response, in the order of the calls. *)
Fixpoint audit_trail (calls : list (URLInput * Request * string))
    (results : list (result Response.t)) : list LogEntry.t :=
  match calls, results with
  | (_, request, _) :: calls', Ok resp :: results' =>
      audit_of (client request) resp :: audit_trail calls' results'
  | _ :: calls', Raise _ :: results' => audit_trail calls' results'
  | _, _ => []
  end.

(** * Properties *)

(** ** Order of floats *)

Section FloatOrder.

Local Ltac cases_compare :=
  repeat match goal with
    | |- context [Z.compare ?a ?b] => destruct (Z.compare_spec a b)
    | |- context [Pos.compare ?a ?b] => destruct (Pos.compare_spec a b)
    end;
  simpl; try reflexivity; try discriminate; try lia.

Local Ltac float_cases p :=
  destruct p as [[|]|[|]| |[|] ? ?].

(** [p1 < p2] and [p1 >= m] give [p2 >= m]. *)
Lemma fge_mono (p1 p2 m : float) :
  flt p1 p2 = true -> fge p1 m = true -> fge p2 m = true.
Proof.
  unfold flt, fge, SFltb, SFcompare.
  change (Pos.compare_cont Eq) with Pos.compare.
  float_cases p1; float_cases p2; float_cases m; simpl;
    try reflexivity; try discriminate; cases_compare.
Qed.

(** [p1 < p2] and [p2 <= s] give [p1 <= s]. *)
Lemma fle_mono (p1 p2 s : float) :
  flt p1 p2 = true -> fle p2 s = true -> fle p1 s = true.
Proof.
  unfold flt, fle, SFltb, SFleb, SFcompare.
  change (Pos.compare_cont Eq) with Pos.compare.
  float_cases p1; float_cases p2; float_cases s; simpl;
    try reflexivity; try discriminate; cases_compare.
Qed.

End FloatOrder.

(** The literals are the values [float.hex] prints for them:
    0.01 = 0x1.47ae147ae147bp-7, 0.3 = 0x1.3333333333333p-2,
    0.5 = 0x1.0p-1, 0.7 = 0x1.6666666666666p-1,
    0.92 = 0x1.d70a3d70a3d71p-1 and 1.0 = 0x1.0p+0. *)
Lemma literal_values :
  f_0_01 = S754_finite false 0x147ae147ae147b (-7 - 52)
  /\ f_0_3 = S754_finite false 0x13333333333333 (-2 - 52)
  /\ f_0_5 = S754_finite false 0x10000000000000 (-1 - 52)
  /\ f_0_7 = S754_finite false 0x16666666666666 (-1 - 52)
  /\ f_0_92 = S754_finite false 0x1d70a3d70a3d71 (-1 - 52)
  /\ f_1_0 = S754_finite false 0x10000000000000 (0 - 52).
Proof. repeat split. Qed.

(** The literals are valid binary64 values. *)
Lemma literal_valid :
  forallb (valid_binary 53 1024) [f_0_0; f_0_01; f_0_3; f_0_5; f_0_7; f_0_92; f_1_0]
  = true.
Proof. reflexivity. Qed.

(** ** Threshold classification *)

Section ClassifierFacts.
Context {Cfg : Config}.

Lemma classify_proba_malicious (p : float) :
  fge p T_MAL = true -> classify_proba p = "malicious".
Proof. unfold classify_proba. intros ->. reflexivity. Qed.

Lemma classify_proba_benign (p : float) :
  fge p T_MAL = false -> fle p T_SAFE = true -> classify_proba p = "benign".
Proof. unfold classify_proba. intros -> ->. reflexivity. Qed.

Lemma classify_proba_suspicious (p : float) :
  fge p T_MAL = false -> fle p T_SAFE = false -> classify_proba p = "suspicious".
Proof. unfold classify_proba. intros -> ->. reflexivity. Qed.

(** The label is one of the three. *)
Lemma classify_proba_label (p : float) :
  classify_proba p = "malicious" \/ classify_proba p = "benign"
  \/ classify_proba p = "suspicious".
Proof.
  unfold classify_proba.
  destruct (fge p T_MAL); [now left|].
  destruct (fle p T_SAFE); [right; now left | right; now right].
Qed.

Lemma severity_classify_proba (p : float) :
  severity (classify_proba p)
  = Some (if fge p T_MAL then 2 else if fle p T_SAFE then 0 else 1)%nat.
Proof.
  unfold classify_proba.
  destruct (fge p T_MAL); [reflexivity|].
  destruct (fle p T_SAFE); reflexivity.
Qed.

End ClassifierFacts.

(** C2. Threshold classification: for every float [p] and every pair of
    thresholds, [classify_proba p] is defined and is exactly one of
    "malicious", "benign", "suspicious"; the tests are taken in order:
    it is "malicious" exactly when [p >= T_MAL], "benign" exactly when
    that fails and [p <= T_SAFE], and "suspicious" exactly when both
    fail.  With safe = 0.3 and malicious = 0.7: 0.3 is benign, 0.7 is
    malicious, 0.5 is suspicious, 0.0 is benign and 1.0 is malicious.
    Nothing is asked of [p] or of the thresholds, so the statement covers
    the probabilities in [0,1] and the pairs with safe <= malicious. *)
Theorem classify_proba_three_levels :
  (forall (Cfg : Config) (p : float),
      (classify_proba p = "malicious" \/ classify_proba p = "benign"
       \/ classify_proba p = "suspicious")
      /\ (classify_proba p = "malicious" <-> fge p T_MAL = true)
      /\ (classify_proba p = "benign"
          <-> fge p T_MAL = false /\ fle p T_SAFE = true)
      /\ (classify_proba p = "suspicious"
          <-> fge p T_MAL = false /\ fle p T_SAFE = false))
  /\ classify_proba (Cfg:=config_03_07) f_0_3 = "benign"
  /\ classify_proba (Cfg:=config_03_07) f_0_7 = "malicious"
  /\ classify_proba (Cfg:=config_03_07) f_0_5 = "suspicious"
  /\ classify_proba (Cfg:=config_03_07) f_0_0 = "benign"
  /\ classify_proba (Cfg:=config_03_07) f_1_0 = "malicious".
Proof.
  split; [|repeat split; reflexivity].
  intros Cfg p. split; [apply classify_proba_label|].
  unfold classify_proba.
  destruct (fge p T_MAL) eqn:Hm; [|destruct (fle p T_SAFE) eqn:Hs];
    repeat split; intros; try discriminate; try reflexivity;
    match goal with
    | Hx : _ /\ _ |- _ => destruct Hx; discriminate
    | _ => idtac
    end.
Qed.

(** C5. Monotonicity: for every pair of thresholds and all floats
    [p1 < p2], the label of [p1] is at most as severe as the label of
    [p2] in the order benign < suspicious < malicious. *)
Theorem classify_proba_monotone (Cfg : Config) (p1 p2 : float) :
  flt p1 p2 = true ->
  exists r1 r2 : nat,
    severity (classify_proba p1) = Some r1
    /\ severity (classify_proba p2) = Some r2
    /\ (r1 <= r2)%nat.
Proof.
  intros Hlt.
  rewrite !severity_classify_proba.
  eexists _, _. split; [reflexivity|]. split; [reflexivity|].
  destruct (fge p1 T_MAL) eqn:Hm1.
  - rewrite (fge_mono _ _ _ Hlt Hm1). lia.
  - destruct (fge p2 T_MAL); [destruct (fle p1 T_SAFE); lia|].
    destruct (fle p2 T_SAFE) eqn:Hs2.
    + rewrite (fle_mono _ _ _ Hlt Hs2). lia.
    + destruct (fle p1 T_SAFE); lia.
Qed.

Lemma classify_proba_monotone_witness :
  flt f_0_3 f_0_7 = true
  /\ exists r1 r2 : nat,
      severity (classify_proba (Cfg:=config_03_07) f_0_3) = Some r1
      /\ severity (classify_proba (Cfg:=config_03_07) f_0_7) = Some r2
      /\ (r1 <= r2)%nat.
Proof.
  split; [reflexivity|].
  apply (classify_proba_monotone config_03_07 f_0_3 f_0_7). reflexivity.
Defined.

(** ** Domain resolution *)

Section ResolverFacts.
Context {Itp : Interpreter}.

Lemma extract_base_domain_parsed (url : string) (parsed : ParseResult) :
  urllib.urlparse url = Ok parsed ->
  extract_base_domain url = Ok (without_www (Py.lower (netloc parsed))).
Proof. unfold extract_base_domain. intros ->. reflexivity. Qed.

Lemma extract_base_domain_fallback (url : string) (e : exn) :
  urllib.urlparse url = Raise e ->
  extract_base_domain url = Ok (Py.lower url).
Proof. unfold extract_base_domain. intros ->. reflexivity. Qed.

(** The resolver returns on every input. *)
Lemma extract_base_domain_returns (url : string) :
  exists domain, extract_base_domain url = Ok domain.
Proof.
  destruct (urllib.urlparse url) as [parsed|e] eqn:Hp.
  - eexists. apply (extract_base_domain_parsed _ _ Hp).
  - eexists. apply (extract_base_domain_fallback _ _ Hp).
Qed.

(** An input that parses and has no network location resolves to the
    empty string. *)
Lemma extract_base_domain_no_netloc (url : string) (parsed : ParseResult) :
  urllib.urlparse url = Ok parsed -> netloc parsed = "" ->
  extract_base_domain url = Ok "".
Proof.
  intros Hp Hn. rewrite (extract_base_domain_parsed _ _ Hp), Hn. reflexivity.
Qed.

(** Inputs without the two slashes of an authority have no network
    location, whatever the interpreter. *)
Lemma resolve_bare_hostname : extract_base_domain "google.com" = Ok "".
Proof. reflexivity. Qed.

Lemma resolve_text : extract_base_domain "Hello World" = Ok "".
Proof. reflexivity. Qed.

Lemma resolve_empty : extract_base_domain "" = Ok "".
Proof. reflexivity. Qed.

Lemma resolve_malformed_scheme : extract_base_domain "ht!tp://x.com" = Ok "".
Proof. reflexivity. Qed.

Lemma resolve_www_upper :
  extract_base_domain "https://www.Google.com/x" = Ok "google.com".
Proof. reflexivity. Qed.

(** An unbalanced bracket makes the parser raise: the fallback answers. *)
Lemma parse_unbalanced_bracket :
  urllib.urlparse "HTTP://[" = Raise urllib.invalid_ipv6.
Proof. reflexivity. Qed.

Lemma resolve_unbalanced_bracket : extract_base_domain "HTTP://[" = Ok "http://[".
Proof. reflexivity. Qed.

End ResolverFacts.

(** C4, as the specification words it, fails: non-URL text is parsed
    without an exception, so the resolver answers the empty string and
    not the lower-cased input. *)
Lemma resolver_fallback_counterexample :
  extract_base_domain (Itp:=no_bracket_validation) "Hello World" = Ok ""
  /\ extract_base_domain (Itp:=no_bracket_validation) "Hello World"
     <> Ok (Py.lower "Hello World").
Proof. split; [reflexivity | discriminate]. Qed.

Lemma after_last_absent (c : ascii) (s : string) :
  Py.contains c s = false -> after_last c s = s.
Proof.
  induction s as [|a s IH]; [reflexivity|].
  cbn [Py.contains after_last]. intros Hc.
  apply orb_false_iff in Hc as [Ha Hs]. now rewrite Hs, Ha.
Qed.

Lemma before_first_absent (c : ascii) (s : string) :
  Py.contains c s = false -> before_first c s = s.
Proof.
  induction s as [|a s IH]; [reflexivity|].
  cbn [Py.contains before_first]. intros Hc.
  apply orb_false_iff in Hc as [Ha Hs]. now rewrite Ha, (IH Hs).
Qed.

(** The host component of a bare host is the network location itself. *)
Lemma host_component_bare (netloc : string) :
  bare_host netloc = true -> host_component netloc = netloc.
Proof.
  unfold bare_host, host_component. intros Hb.
  apply andb_true_iff in Hb as [Hb H3]. apply andb_true_iff in Hb as [H1 H2].
  apply negb_true_iff in H1, H2, H3.
  rewrite (after_last_absent _ _ H1), H3. now apply before_first_absent.
Qed.

(** C4, amended. For every input string the resolver returns and never
    raises.  When [urlparse] returns and the network location is a bare
    host (no user information, no port, no bracket), the result is the
    host component lower-cased with a single leading "www." removed, so
    "https://www.Google.com/x" resolves to "google.com".  When
    [urlparse] returns and finds no network location, as for the empty
    string, non-URL text or a malformed scheme, the result is the empty
    string.  Only when [urlparse] raises, as on the unbalanced bracket of
    "HTTP://[", is the result the lower-cased input.  Network locations
    with user information or a port are left out of the statement. *)
Theorem extract_base_domain_contract (Itp : Interpreter) (url : string) :
  (exists domain, extract_base_domain url = Ok domain)
  /\ (forall parsed, urllib.urlparse url = Ok parsed ->
        bare_host (netloc parsed) = true ->
        extract_base_domain url
        = Ok (without_www (Py.lower (host_component (netloc parsed)))))
  /\ (forall parsed, urllib.urlparse url = Ok parsed ->
        netloc parsed = "" -> extract_base_domain url = Ok "")
  /\ (forall e, urllib.urlparse url = Raise e ->
        extract_base_domain url = Ok (Py.lower url))
  /\ extract_base_domain "https://www.Google.com/x" = Ok "google.com"
  /\ extract_base_domain "" = Ok ""
  /\ extract_base_domain "Hello World" = Ok ""
  /\ extract_base_domain "ht!tp://x.com" = Ok ""
  /\ (urllib.urlparse "HTTP://[" = Raise urllib.invalid_ipv6
      /\ extract_base_domain "HTTP://[" = Ok "http://[").
Proof.
  split; [apply extract_base_domain_returns|].
  split.
  { intros parsed Hp Hb. rewrite (host_component_bare _ Hb).
    apply extract_base_domain_parsed, Hp. }
  split; [apply extract_base_domain_no_netloc|].
  split; [apply extract_base_domain_fallback|].
  repeat split.
Qed.

Lemma extract_base_domain_contract_witness :
  extract_base_domain (Itp:=no_bracket_validation) "https://www.www.Example.COM/a"
  = Ok "www.example.com".
Proof.
  destruct (extract_base_domain_contract no_bracket_validation
              "https://www.www.Example.COM/a") as (_ & Hparsed & _).
  apply (Hparsed (mkParseResult "https" "www.www.Example.COM" "/a")).
  - reflexivity.
  - reflexivity.
Defined.

(** ** Trust matching *)

Section TrustFacts.
Context {Itp : Interpreter}.

(** The loop of [is_trusted_domain] finds an entry exactly when one
    exists in the set. *)
Lemma suffix_loop_spec (trusted_domains : gset string) (domain : string) :
  existsb (fun trusted => Py.startswith trusted "." && Py.endswith domain trusted)
          (elements trusted_domains) = true
  <-> exists trusted, trusted ∈ trusted_domains
                      /\ Py.startswith trusted "." = true
                      /\ Py.endswith domain trusted = true.
Proof.
  rewrite existsb_exists. split.
  - intros (t & Hin & Ht). exists t.
    apply list_elem_of_In, elem_of_elements in Hin.
    apply andb_true_iff in Ht. tauto.
  - intros (t & Hin & Hs & He). exists t. split.
    + apply list_elem_of_In, elem_of_elements, Hin.
    + now rewrite Hs, He.
Qed.

Lemma is_trusted_domain_in_spec (trusted_domains : gset string)
    (url domain : string) :
  extract_base_domain url = Ok domain ->
  (exists b, is_trusted_domain_in trusted_domains url = Ok b)
  /\ (is_trusted_domain_in trusted_domains url = Ok true
      <-> domain ∈ trusted_domains
          \/ exists trusted, trusted ∈ trusted_domains
                             /\ Py.startswith trusted "." = true
                             /\ Py.endswith domain trusted = true).
Proof.
  intros Hd. unfold is_trusted_domain_in. rewrite Hd. simpl.
  pose proof (suffix_loop_spec trusted_domains domain) as Hloop.
  destruct (bool_decide (domain ∈ trusted_domains)) eqn:Hmem.
  - apply bool_decide_eq_true in Hmem. split; [eauto|]. split; auto.
  - apply bool_decide_eq_false in Hmem.
    destruct (existsb _ (elements trusted_domains)).
    + split; [eauto|]. split; [intros _; right; now apply Hloop | auto].
    + split; [eauto|]. split; [discriminate|].
      intros [Hin|Hex]; [contradiction|].
      apply Hloop in Hex. discriminate.
Qed.

(** The trust check depends on the URL through its resolved domain only. *)
Lemma is_trusted_domain_in_resolved (trusted_domains : gset string)
    (url url' domain : string) :
  extract_base_domain url = Ok domain ->
  extract_base_domain url' = Ok domain ->
  is_trusted_domain_in trusted_domains url
  = is_trusted_domain_in trusted_domains url'.
Proof. unfold is_trusted_domain_in. intros -> ->. reflexivity. Qed.

Lemma is_trusted_domain_returns (url : string) :
  exists b, is_trusted_domain url = Ok b.
Proof.
  destruct (extract_base_domain_returns url) as [d Hd].
  apply (is_trusted_domain_in_spec TRUSTED_DOMAINS _ _ Hd).
Qed.

(** As configured, no entry of [TRUSTED_DOMAINS] begins with ".", so the
    loop never finds a suffix entry: "edu.sa" is an exact entry and a URL
    resolving to "mail.kfupm.edu.sa" is not trusted. *)
Lemma no_suffix_entry_configured :
  forallb (fun trusted => negb (Py.startswith trusted "."))
          (elements TRUSTED_DOMAINS) = true.
Proof. vm_compute. reflexivity. Qed.

Lemma subdomain_not_trusted_as_configured (url : string) :
  extract_base_domain url = Ok "mail.kfupm.edu.sa" ->
  is_trusted_domain url = Ok false.
Proof.
  intros Hd. unfold is_trusted_domain, is_trusted_domain_in. rewrite Hd.
  vm_compute. reflexivity.
Qed.

End TrustFacts.

(** C3. Trust matching: [is_trusted_domain] returns, and returns true
    exactly when the resolved domain is a member of the configured set or
    some configured entry begins with "." and the domain ends with it.
    A URL resolving to "mail.kfupm.edu.sa" is trusted by any set holding
    the suffix entry ".edu.sa"; with [TRUSTED_DOMAINS], a URL resolving to
    "google.com" is trusted and one resolving to "evil-google.com" is
    not. *)
Theorem trust_matching (Itp : Interpreter) (trusted_domains : gset string)
    (url domain : string) :
  extract_base_domain url = Ok domain ->
  (exists b, is_trusted_domain_in trusted_domains url = Ok b)
  /\ (is_trusted_domain_in trusted_domains url = Ok true
      <-> domain ∈ trusted_domains
          \/ exists trusted, trusted ∈ trusted_domains
                             /\ Py.startswith trusted "." = true
                             /\ Py.endswith domain trusted = true)
  /\ (domain = "mail.kfupm.edu.sa" -> ".edu.sa" ∈ trusted_domains ->
      is_trusted_domain_in trusted_domains url = Ok true)
  /\ (domain = "google.com" -> is_trusted_domain url = Ok true)
  /\ (domain = "evil-google.com" -> is_trusted_domain url = Ok false).
Proof.
  intros Hd.
  destruct (is_trusted_domain_in_spec trusted_domains _ _ Hd) as [Hret Hiff].
  split; [exact Hret|]. split; [exact Hiff|]. split; [|split].
  - intros -> Hin. apply Hiff. right. exists ".edu.sa". now repeat split.
  - intros ->. unfold is_trusted_domain, is_trusted_domain_in. rewrite Hd.
    vm_compute. reflexivity.
  - intros ->. unfold is_trusted_domain, is_trusted_domain_in. rewrite Hd.
    vm_compute. reflexivity.
Qed.

Lemma trust_matching_witness :
  is_trusted_domain_in (Itp:=no_bracket_validation) {[ ".edu.sa" ]}
    "https://mail.kfupm.edu.sa/" = Ok true
  /\ is_trusted_domain (Itp:=no_bracket_validation) "https://www.google.com/" = Ok true
  /\ is_trusted_domain (Itp:=no_bracket_validation) "http://evil-google.com/login"
     = Ok false.
Proof.
  split; [|split].
  - refine (proj1 (proj2 (proj2 (trust_matching no_bracket_validation {[ ".edu.sa" ]}
              "https://mail.kfupm.edu.sa/" "mail.kfupm.edu.sa" _))) _ _).
    + reflexivity.
    + reflexivity.
    + apply elem_of_singleton. reflexivity.
  - refine (proj1 (proj2 (proj2 (proj2 (trust_matching no_bracket_validation ∅
              "https://www.google.com/" "google.com" _)))) _); reflexivity.
  - refine (proj2 (proj2 (proj2 (proj2 (trust_matching no_bracket_validation ∅
              "http://evil-google.com/login" "evil-google.com" _)))) _); reflexivity.
Defined.

(** ** White space *)

Lemma append_empty (s : string) : "" +:+ s = s.
Proof. reflexivity. Qed.

Lemma append_cons (c : ascii) (s t : string) :
  String c s +:+ t = String c (s +:+ t).
Proof. reflexivity. Qed.

Section StripFacts.
Variable p : ascii -> bool.

Lemma lstrip_by_all (s : string) :
  Py.all_chars p s = true -> Py.lstrip_by p s = "".
Proof.
  induction s as [|c s IH]; simpl; [reflexivity|].
  intros Hall. apply andb_true_iff in Hall as [Hc Hs].
  rewrite Hc. auto.
Qed.

Lemma rstrip_by_all (s : string) :
  Py.all_chars p s = true -> Py.rstrip_by p s = "".
Proof.
  induction s as [|c s IH]; simpl; [reflexivity|].
  intros Hall. apply andb_true_iff in Hall as [Hc Hs].
  rewrite (IH Hs), Hc. reflexivity.
Qed.

Lemma lstrip_by_app_lead (lead s : string) :
  Py.all_chars p lead = true ->
  Py.lstrip_by p (lead +:+ s) = Py.lstrip_by p s.
Proof.
  induction lead as [|c lead IH]; [reflexivity|].
  rewrite append_cons. simpl.
  intros Hall. apply andb_true_iff in Hall as [Hc Hs].
  rewrite Hc. auto.
Qed.

Lemma rstrip_by_app_trail (s trail : string) :
  Py.all_chars p trail = true ->
  Py.rstrip_by p (s +:+ trail) = Py.rstrip_by p s.
Proof.
  intros Hall. induction s as [|c s IH].
  - rewrite append_empty. now apply rstrip_by_all.
  - rewrite append_cons. simpl. rewrite IH. reflexivity.
Qed.

Lemma strip_by_app_trail (s trail : string) :
  Py.all_chars p trail = true ->
  Py.rstrip_by p (Py.lstrip_by p (s +:+ trail))
  = Py.rstrip_by p (Py.lstrip_by p s).
Proof.
  intros Hall. induction s as [|c s IH].
  - rewrite append_empty, (lstrip_by_all _ Hall). reflexivity.
  - rewrite append_cons. simpl.
    destruct (p c) eqn:Hc; [exact IH|].
    rewrite <- append_cons.
    apply (rstrip_by_app_trail (String c s) trail Hall).
Qed.

Lemma lstrip_by_lstripped (s : string) : lstripped p (Py.lstrip_by p s).
Proof.
  induction s as [|c s IH]; simpl; [exact I|].
  destruct (p c) eqn:Hc; [exact IH | exact Hc].
Qed.

Lemma lstrip_by_id (s : string) : lstripped p s -> Py.lstrip_by p s = s.
Proof. destruct s as [|c s]; simpl; [reflexivity|]. now intros ->. Qed.

Lemma rstrip_by_lstripped (s : string) :
  lstripped p s -> lstripped p (Py.rstrip_by p s).
Proof.
  destruct s as [|c s]; simpl; [auto|]. intros Hc.
  destruct (Py.rstrip_by p s); simpl; [rewrite Hc|]; exact Hc.
Qed.

Lemma rstrip_by_idem (s : string) :
  Py.rstrip_by p (Py.rstrip_by p s) = Py.rstrip_by p s.
Proof.
  induction s as [|c s IH]; simpl; [reflexivity|].
  destruct (Py.rstrip_by p s) as [|d r] eqn:Hr.
  - destruct (p c) eqn:Hc; simpl; [reflexivity|]. now rewrite Hc.
  - change (Py.rstrip_by p (String c (String d r))) with
      (match Py.rstrip_by p (String d r) with
       | EmptyString => if p c then EmptyString else String c EmptyString
       | r' => String c r'
       end).
    rewrite IH. reflexivity.
Qed.

End StripFacts.

(** Surrounding white space does not change what [strip] returns. *)
Lemma strip_surrounded (lead s trail : string) :
  Py.all_chars Py.isspace lead = true ->
  Py.all_chars Py.isspace trail = true ->
  Py.strip (lead +:+ s +:+ trail) = Py.strip s.
Proof.
  intros Hl Ht. unfold Py.strip.
  rewrite (lstrip_by_app_lead _ _ _ Hl).
  apply (strip_by_app_trail _ _ _ Ht).
Qed.

Lemma strip_idem (s : string) : Py.strip (Py.strip s) = Py.strip s.
Proof.
  unfold Py.strip.
  rewrite (lstrip_by_id Py.isspace (Py.rstrip_by Py.isspace (Py.lstrip_by Py.isspace s))).
  - apply rstrip_by_idem.
  - apply rstrip_by_lstripped, lstrip_by_lstripped.
Qed.

(** ** The handler *)

Section HandlerFacts.
Context {Itp : Interpreter} {Cfg : Config} {Sc : Scorer}.

(** One run of the handler, by the outcome of the trust check and of
    the scorer. *)
Lemma predict_url_run (data : URLInput) (request : Request)
    (utcnow : string) (w : World) (domain : string) (trusted : bool) :
  extract_base_domain (Py.strip (url data)) = Ok domain ->
  is_trusted_domain (Py.strip (url data)) = Ok trusted ->
  predict_url data request utcnow w =
  let u := Py.strip (url data) in
  let now := utcnow +:+ "Z" in
  if trusted then
    (Ok (response_of u domain true "benign" f_0_01 "whitelist" now),
     mkWorld (model_state w) (scorer_calls w)
       (log_file w ++ [log_entry_of (client request) u domain true
                         "benign" f_0_01 "whitelist" now]))
  else
    match predict_proba u (model_state w) with
    | (Ok p, st) =>
        (Ok (response_of u domain false (classify_proba p) p "model" now),
         mkWorld st (scorer_calls w ++ [u])
           (log_file w ++ [log_entry_of (client request) u domain false
                             (classify_proba p) p "model" now]))
    | (Raise e, st) =>
        (Raise e, mkWorld st (scorer_calls w ++ [u]) (log_file w))
    end.
Proof.
  intros Hd Ht. unfold predict_url, bind, lift. rewrite Hd, Ht.
  destruct trusted; [reflexivity|].
  unfold model_predict, bind, score, ret, logger_info. simpl.
  destruct (predict_proba (Py.strip (url data)) (model_state w)) as [[pr|e] st];
    reflexivity.
Qed.

(** The handler reads its input through [strip] only. *)
Lemma predict_url_stripped (data data' : URLInput) (request : Request)
    (utcnow : string) (w : World) :
  Py.strip (url data) = Py.strip (url data') ->
  predict_url data request utcnow w = predict_url data' request utcnow w.
Proof. unfold predict_url. intros ->. reflexivity. Qed.

End HandlerFacts.

(** C1. Trust override: when the trust check of the stripped URL answers
    true, the handler returns a response with prediction "benign",
    probability 0.01, source "whitelist" and the trust flag set; the
    scorer is not called (its list of calls and its state are as before),
    the response is the same record under any other scorer, and one log
    entry is appended. *)
Theorem trust_override (Itp : Interpreter) (Cfg : Config) (Sc Sc' : Scorer)
    (data : URLInput) (request : Request) (utcnow : string)
    (w : World (Sc:=Sc)) (w' : World (Sc:=Sc')) :
  is_trusted_domain (Py.strip (url data)) = Ok true ->
  exists (domain : string) (resp : Response.t) (entry : LogEntry.t),
    extract_base_domain (Py.strip (url data)) = Ok domain
    /\ fst (predict_url data request utcnow w) = Ok resp
    /\ resp = response_of (Py.strip (url data)) domain true "benign" f_0_01
                "whitelist" (utcnow +:+ "Z")
    /\ Response.prediction resp = "benign"
    /\ Response.probability_malicious resp = f_0_01
    /\ Response.source resp = "whitelist"
    /\ scorer_calls (snd (predict_url data request utcnow w)) = scorer_calls w
    /\ model_state (snd (predict_url data request utcnow w)) = model_state w
    /\ log_file (snd (predict_url data request utcnow w)) = (log_file w ++ [entry])%list
    /\ fst (predict_url data request utcnow w') = Ok resp.
Proof.
  intros Ht.
  destruct (extract_base_domain_returns (Py.strip (url data))) as [domain Hd].
  rewrite (predict_url_run data request utcnow w domain true Hd Ht).
  rewrite (predict_url_run data request utcnow w' domain true Hd Ht).
  simpl. eexists domain, _, _. repeat split; try reflexivity. exact Hd.
Qed.

(** End to end: "https://google.com/" with a call-counting scorer. *)
Lemma trust_override_witness :
  is_trusted_domain (Itp:=no_bracket_validation) (Py.strip "https://google.com/") = Ok true
  /\ exists resp,
      fst (predict_url (Itp:=no_bracket_validation) (Cfg:=config_03_07)
             (Sc:=counting_scorer f_0_92)
             (mkURLInput "https://google.com/") (mkRequest None)
             "2024-01-01T00:00:00" (mkWorld (Sc:=counting_scorer f_0_92) 0%nat [] []))
      = Ok resp
      /\ Response.prediction resp = "benign"
      /\ Response.probability_malicious resp = f_0_01
      /\ Response.source resp = "whitelist"
      /\ model_state
           (snd (predict_url (Itp:=no_bracket_validation) (Cfg:=config_03_07)
                   (Sc:=counting_scorer f_0_92)
                   (mkURLInput "https://google.com/") (mkRequest None)
                   "2024-01-01T00:00:00"
                   (mkWorld (Sc:=counting_scorer f_0_92) 0%nat [] [])))
         = 0%nat.
Proof.
  split; [reflexivity|].
  destruct (trust_override no_bracket_validation config_03_07
              (counting_scorer f_0_92) (failing_scorer urllib.invalid_ipv6)
              (mkURLInput "https://google.com/") (mkRequest None)
              "2024-01-01T00:00:00"
              (mkWorld (Sc:=counting_scorer f_0_92) 0%nat [] [])
              (mkWorld (Sc:=failing_scorer urllib.invalid_ipv6) tt [] [])
              eq_refl)
    as (domain & resp & entry & _ & Hr & _ & Hp & Hq & Hs & _ & Hm & _).
  exists resp. repeat split; assumption.
Defined.

(** C6. Model path: when the trust check of the stripped URL answers
    false and the scorer returns [p] on that URL, the handler returns a
    response whose probability is [p], whose prediction is
    [classify_proba p] and whose source is "model", after exactly one call
    of the scorer.  With thresholds (0.3, 0.7) and a scorer answering
    0.92, "http://secure-paypal-login.example.com" is "malicious" with
    source "model". *)
Theorem model_path :
  (forall (Itp : Interpreter) (Cfg : Config) (Sc : Scorer)
          (data : URLInput) (request : Request) (utcnow : string)
          (w : World) (p : float) (st : scorer_state),
      is_trusted_domain (Py.strip (url data)) = Ok false ->
      predict_proba (Py.strip (url data)) (model_state w) = (Ok p, st) ->
      exists resp : Response.t,
        fst (predict_url data request utcnow w) = Ok resp
        /\ Response.probability_malicious resp = p
        /\ Response.prediction resp = classify_proba p
        /\ Response.source resp = "model"
        /\ Response.trusted_domain resp = false
        /\ scorer_calls (snd (predict_url data request utcnow w))
           = (scorer_calls w ++ [Py.strip (url data)])%list)
  /\ (forall (Itp : Interpreter) (request : Request) (utcnow : string)
             (w : World (Sc:=counting_scorer f_0_92)),
        exists resp : Response.t,
          fst (predict_url (Cfg:=config_03_07) (Sc:=counting_scorer f_0_92)
                 (mkURLInput "http://secure-paypal-login.example.com")
                 request utcnow w) = Ok resp
          /\ Response.probability_malicious resp = f_0_92
          /\ Response.prediction resp = "malicious"
          /\ Response.source resp = "model").
Proof.
  assert (Hgen : forall (Itp : Interpreter) (Cfg : Config) (Sc : Scorer)
          (data : URLInput) (request : Request) (utcnow : string)
          (w : World) (p : float) (st : scorer_state),
      is_trusted_domain (Py.strip (url data)) = Ok false ->
      predict_proba (Py.strip (url data)) (model_state w) = (Ok p, st) ->
      exists resp : Response.t,
        fst (predict_url data request utcnow w) = Ok resp
        /\ Response.probability_malicious resp = p
        /\ Response.prediction resp = classify_proba p
        /\ Response.source resp = "model"
        /\ Response.trusted_domain resp = false
        /\ scorer_calls (snd (predict_url data request utcnow w))
           = (scorer_calls w ++ [Py.strip (url data)])%list).
  { intros Itp Cfg Sc data request utcnow w p st Ht Hp.
    destruct (extract_base_domain_returns (Py.strip (url data))) as [domain Hd].
    rewrite (predict_url_run data request utcnow w domain false Hd Ht).
    simpl. rewrite Hp. simpl. eexists. repeat split. }
  split; [exact Hgen|].
  intros Itp request utcnow w.
  destruct (Hgen Itp config_03_07 (counting_scorer f_0_92)
              (mkURLInput "http://secure-paypal-login.example.com")
              request utcnow w f_0_92 (S (model_state w)))
    as (resp & Hr & Hp & Hl & Hs & _); [vm_compute; reflexivity | reflexivity |].
  exists resp. repeat split; assumption.
Qed.

Lemma model_path_witness :
  exists resp : Response.t,
    fst (predict_url (Itp:=no_bracket_validation) (Cfg:=config_03_07)
           (Sc:=counting_scorer f_0_5)
           (mkURLInput " http://example.org/login ") (mkRequest (Some "10.0.0.7"))
           "2024-01-01T00:00:00" (mkWorld (Sc:=counting_scorer f_0_5) 0%nat [] []))
    = Ok resp
    /\ Response.probability_malicious resp = f_0_5
    /\ Response.prediction resp = "suspicious"
    /\ Response.source resp = "model".
Proof.
  destruct (proj1 model_path no_bracket_validation config_03_07
              (counting_scorer f_0_5)
              (mkURLInput " http://example.org/login ") (mkRequest (Some "10.0.0.7"))
              "2024-01-01T00:00:00" (mkWorld (Sc:=counting_scorer f_0_5) 0%nat [] [])
              f_0_5 1%nat eq_refl eq_refl)
    as (resp & Hr & Hp & Hl & Hs & _).
  exists resp. repeat split; assumption.
Defined.

(** C7. Scorer failure: when the trust check answers false and the
    scorer raises, the handler raises the same exception, returns no
    response and writes no log entry.  Every response the handler returns
    carries one of the three labels, and the label is accounted for:
    either the source is "whitelist", the trust check answered true and
    the label is "benign", or the source is "model" and the label is
    [classify_proba p] for the [p] the scorer returned. *)
Theorem scorer_failure_is_an_error (Itp : Interpreter) (Cfg : Config)
    (Sc : Scorer) (data : URLInput) (request : Request) (utcnow : string)
    (w : World) :
  (forall (e : exn) (st : scorer_state),
      is_trusted_domain (Py.strip (url data)) = Ok false ->
      predict_proba (Py.strip (url data)) (model_state w) = (Raise e, st) ->
      fst (predict_url data request utcnow w) = Raise e
      /\ log_file (snd (predict_url data request utcnow w)) = log_file w)
  /\ (forall resp : Response.t,
        fst (predict_url data request utcnow w) = Ok resp ->
        (Response.prediction resp = "malicious"
         \/ Response.prediction resp = "benign"
         \/ Response.prediction resp = "suspicious")
        /\ ((Response.source resp = "whitelist"
             /\ is_trusted_domain (Py.strip (url data)) = Ok true
             /\ Response.prediction resp = "benign")
            \/ (Response.source resp = "model"
                /\ exists (p : float) (st : scorer_state),
                    predict_proba (Py.strip (url data)) (model_state w) = (Ok p, st)
                    /\ Response.probability_malicious resp = p
                    /\ Response.prediction resp = classify_proba p))).
Proof.
  destruct (extract_base_domain_returns (Py.strip (url data))) as [domain Hd].
  split.
  - intros e st Ht Hp.
    rewrite (predict_url_run data request utcnow w domain false Hd Ht).
    simpl. rewrite Hp. split; reflexivity.
  - intros resp.
    destruct (is_trusted_domain_returns (Py.strip (url data))) as [trusted Ht].
    rewrite (predict_url_run data request utcnow w domain trusted Hd Ht).
    destruct trusted; simpl.
    + intros [= <-]. simpl. split; [right; now left|]. left. now repeat split.
    + destruct (predict_proba (Py.strip (url data)) (model_state w))
        as [[p|e] st] eqn:Hp; simpl; [|discriminate].
      intros [= <-]. simpl. split; [apply classify_proba_label|].
      right. split; [reflexivity|]. exists p, st. now repeat split.
Qed.

Lemma scorer_failure_is_an_error_witness :
  fst (predict_url (Itp:=no_bracket_validation) (Cfg:=config_03_07)
         (Sc:=failing_scorer (PyExc "NotFittedError" "vectorizer is not fitted"))
         (mkURLInput "http://secure-paypal-login.example.com") (mkRequest None)
         "2024-01-01T00:00:00"
         (mkWorld (Sc:=failing_scorer (PyExc "NotFittedError" "vectorizer is not fitted"))
            tt [] []))
  = Raise (PyExc "NotFittedError" "vectorizer is not fitted").
Proof.
  apply (proj1 (scorer_failure_is_an_error no_bracket_validation config_03_07
           (failing_scorer (PyExc "NotFittedError" "vectorizer is not fitted"))
           (mkURLInput "http://secure-paypal-login.example.com") (mkRequest None)
           "2024-01-01T00:00:00"
           (mkWorld (Sc:=failing_scorer (PyExc "NotFittedError" "vectorizer is not fitted"))
              tt [] []))
         (PyExc "NotFittedError" "vectorizer is not fitted") tt eq_refl eq_refl).
Defined.

Section OutcomeFacts.
Context {Itp : Interpreter} {Cfg : Config} {Sc : Scorer}.

(** Two runs on the same input in which the scorer answers alike end in
    the same outcome up to the timestamp. *)
Lemma predict_url_same_outcome (data : URLInput) (request1 request2 : Request)
    (utcnow1 utcnow2 : string) (w1 w2 : World) :
  fst (predict_proba (Py.strip (url data)) (model_state w1))
  = fst (predict_proba (Py.strip (url data)) (model_state w2)) ->
  same_outcome (fst (predict_url data request1 utcnow1 w1))
               (fst (predict_url data request2 utcnow2 w2)).
Proof.
  intros Hsame.
  destruct (extract_base_domain_returns (Py.strip (url data))) as [domain Hd].
  destruct (is_trusted_domain_returns (Py.strip (url data))) as [trusted Ht].
  rewrite (predict_url_run data request1 utcnow1 w1 domain trusted Hd Ht).
  rewrite (predict_url_run data request2 utcnow2 w2 domain trusted Hd Ht).
  destruct trusted; simpl; [now repeat split|].
  destruct (predict_proba (Py.strip (url data)) (model_state w1)) as [r1 st1].
  destruct (predict_proba (Py.strip (url data)) (model_state w2)) as [r2 st2].
  simpl in Hsame. subst r2.
  destruct r1 as [p|e]; simpl; [now repeat split | reflexivity].
Qed.

End OutcomeFacts.

(** C8. Determinism: with a scorer whose answer does not depend on its
    state, two evaluations of the same submitted URL under the same
    configuration end in the same outcome: both raise the same exception,
    or both return responses that agree on URL, domain, trust flag,
    prediction, probability, thresholds, model version and source.  The
    clock reading, the client and the state of the world may differ. *)
Theorem predict_url_deterministic (Itp : Interpreter) (Cfg : Config)
    (Sc : Scorer) (data : URLInput) (request1 request2 : Request)
    (utcnow1 utcnow2 : string) (w1 w2 : World) :
  deterministic Sc ->
  same_outcome (fst (predict_url data request1 utcnow1 w1))
               (fst (predict_url data request2 utcnow2 w2)).
Proof. intros Hdet. apply predict_url_same_outcome, Hdet. Qed.

Lemma counting_scorer_deterministic (p : float) : deterministic (counting_scorer p).
Proof. intros u st1 st2. reflexivity. Qed.

Lemma predict_url_deterministic_witness :
  same_outcome
    (fst (predict_url (Itp:=no_bracket_validation) (Cfg:=config_03_07)
            (Sc:=counting_scorer f_0_92)
            (mkURLInput "http://secure-paypal-login.example.com")
            (mkRequest (Some "10.0.0.7")) "2024-01-01T00:00:00"
            (mkWorld (Sc:=counting_scorer f_0_92) 0%nat [] [])))
    (fst (predict_url (Itp:=no_bracket_validation) (Cfg:=config_03_07)
            (Sc:=counting_scorer f_0_92)
            (mkURLInput "http://secure-paypal-login.example.com")
            (mkRequest None) "2024-06-30T12:30:00.250000"
            (mkWorld (Sc:=counting_scorer f_0_92) 5%nat ["http://a.example/"] []))).
Proof.
  apply (predict_url_deterministic no_bracket_validation config_03_07
           (counting_scorer f_0_92)).
  exact (counting_scorer_deterministic f_0_92).
Defined.

Lemma google_com_configured : "google.com" ∈ TRUSTED_DOMAINS.
Proof. apply (bool_decide_unpack _). vm_compute. exact I. Qed.

(** C9. Inputs without network location: when [urlparse] returns on the
    stripped URL and the network location is empty, the resolver answers
    the empty string, the trust check answers false, the handler calls
    the scorer on the stripped URL, and a response, when there is one,
    has an empty domain, the trust flag unset and source "model".  So the
    bare host name "google.com", a member of [TRUSTED_DOMAINS], resolves
    to the empty string and is not trusted, and the text "Hello World"
    resolves to the empty string, not to "hello world". *)
Theorem no_netloc_is_never_trusted (Itp : Interpreter) (Cfg : Config)
    (Sc : Scorer) (data : URLInput) (request : Request) (utcnow : string)
    (w : World) (parsed : ParseResult) :
  urllib.urlparse (Py.strip (url data)) = Ok parsed ->
  netloc parsed = "" ->
  extract_base_domain (Py.strip (url data)) = Ok ""
  /\ is_trusted_domain (Py.strip (url data)) = Ok false
  /\ scorer_calls (snd (predict_url data request utcnow w))
     = (scorer_calls w ++ [Py.strip (url data)])%list
  /\ (forall resp : Response.t,
        fst (predict_url data request utcnow w) = Ok resp ->
        Response.domain resp = ""
        /\ Response.trusted_domain resp = false
        /\ Response.source resp = "model")
  /\ ("google.com" ∈ TRUSTED_DOMAINS
      /\ extract_base_domain "google.com" = Ok ""
      /\ is_trusted_domain "google.com" = Ok false)
  /\ (extract_base_domain "Hello World" = Ok ""
      /\ Py.lower "Hello World" = "hello world").
Proof.
  intros Hp Hn.
  pose proof (extract_base_domain_no_netloc _ _ Hp Hn) as Hd.
  assert (Ht : is_trusted_domain (Py.strip (url data)) = Ok false).
  { unfold is_trusted_domain, is_trusted_domain_in. rewrite Hd.
    vm_compute. reflexivity. }
  split; [exact Hd|]. split; [exact Ht|].
  rewrite (predict_url_run data request utcnow w "" false Hd Ht).
  split; [|split; [|split]].
  - simpl.
    destruct (predict_proba (Py.strip (url data)) (model_state w)) as [[p|e] st];
      reflexivity.
  - simpl.
    destruct (predict_proba (Py.strip (url data)) (model_state w)) as [[p|e] st];
      simpl; [|discriminate].
    intros resp [= <-]. now repeat split.
  - split; [exact google_com_configured|].
    split; [reflexivity | vm_compute; reflexivity].
  - split; reflexivity.
Qed.

Lemma no_netloc_is_never_trusted_witness :
  extract_base_domain (Itp:=no_bracket_validation) (Py.strip " google.com ") = Ok ""
  /\ is_trusted_domain (Itp:=no_bracket_validation) (Py.strip " google.com ") = Ok false
  /\ scorer_calls
       (snd (predict_url (Itp:=no_bracket_validation) (Cfg:=config_03_07)
               (Sc:=counting_scorer f_0_92)
               (mkURLInput " google.com ") (mkRequest None) "2024-01-01T00:00:00"
               (mkWorld (Sc:=counting_scorer f_0_92) 0%nat [] [])))
     = ["google.com"].
Proof.
  destruct (no_netloc_is_never_trusted no_bracket_validation config_03_07
              (counting_scorer f_0_92)
              (mkURLInput " google.com ") (mkRequest None) "2024-01-01T00:00:00"
              (mkWorld (Sc:=counting_scorer f_0_92) 0%nat [] [])
              (mkParseResult "" "" "google.com") eq_refl eq_refl)
    as (Hd & Ht & Hc & _).
  repeat split; assumption.
Defined.

(** C10. Surrounding white space: the handler works on the stripped URL
    only, so it answers the submitted URL as it answers its stripped
    form; the url field of the response and of the appended log entry is
    the stripped string; and a submission with white space added before
    and after is answered like the original one: identically under the
    same clock reading and client, and with the same outcome up to the
    timestamp otherwise. *)
Theorem surrounding_whitespace_is_ignored (Itp : Interpreter) (Cfg : Config)
    (Sc : Scorer) (data : URLInput) (request : Request) (utcnow : string)
    (w : World) :
  predict_url data request utcnow w
  = predict_url (mkURLInput (Py.strip (url data))) request utcnow w
  /\ (forall resp : Response.t,
        fst (predict_url data request utcnow w) = Ok resp ->
        Response.url resp = Py.strip (url data)
        /\ exists entry : LogEntry.t,
            log_file (snd (predict_url data request utcnow w))
            = (log_file w ++ [entry])%list
            /\ LogEntry.url entry = Py.strip (url data))
  /\ (forall lead trail : string,
        Py.all_chars Py.isspace lead = true ->
        Py.all_chars Py.isspace trail = true ->
        predict_url (mkURLInput (lead +:+ url data +:+ trail)) request utcnow w
        = predict_url data request utcnow w
        /\ forall (request' : Request) (utcnow' : string),
            same_outcome
              (fst (predict_url (mkURLInput (lead +:+ url data +:+ trail))
                      request' utcnow' w))
              (fst (predict_url data request utcnow w))).
Proof.
  split; [|split].
  - apply predict_url_stripped. simpl. symmetry. apply strip_idem.
  - intros resp.
    destruct (extract_base_domain_returns (Py.strip (url data))) as [domain Hd].
    destruct (is_trusted_domain_returns (Py.strip (url data))) as [trusted Ht].
    rewrite (predict_url_run data request utcnow w domain trusted Hd Ht).
    destruct trusted; simpl.
    + intros [= <-]. split; [reflexivity|]. eexists. split; reflexivity.
    + destruct (predict_proba (Py.strip (url data)) (model_state w))
        as [[p|e] st]; simpl; [|discriminate].
      intros [= <-]. split; [reflexivity|]. eexists. split; reflexivity.
  - intros lead trail Hl Htr.
    assert (Hs : Py.strip (url (mkURLInput (lead +:+ url data +:+ trail)))
                 = Py.strip (url data))
      by (simpl; apply strip_surrounded; assumption).
    split; [apply predict_url_stripped, Hs|].
    intros request' utcnow'.
    rewrite (predict_url_stripped _ data request' utcnow' w Hs).
    apply predict_url_same_outcome. reflexivity.
Qed.

Lemma surrounding_whitespace_is_ignored_witness :
  predict_url (Itp:=no_bracket_validation) (Cfg:=config_03_07)
    (Sc:=counting_scorer f_0_92)
    (mkURLInput ("  " +:+ "https://google.com/" +:+ " "))
    (mkRequest None) "2024-01-01T00:00:00"
    (mkWorld (Sc:=counting_scorer f_0_92) 0%nat [] [])
  = predict_url (Itp:=no_bracket_validation) (Cfg:=config_03_07)
      (Sc:=counting_scorer f_0_92)
      (mkURLInput "https://google.com/")
      (mkRequest None) "2024-01-01T00:00:00"
      (mkWorld (Sc:=counting_scorer f_0_92) 0%nat [] []).
Proof.
  destruct (surrounding_whitespace_is_ignored no_bracket_validation
              config_03_07 (counting_scorer f_0_92)
              (mkURLInput "https://google.com/") (mkRequest None)
              "2024-01-01T00:00:00"
              (mkWorld (Sc:=counting_scorer f_0_92) 0%nat [] []))
    as (_ & _ & Hws).
  destruct (Hws "  " " " eq_refl eq_refl) as [Heq _].
  exact Heq.
Defined.

(** * Further properties of the handler *)

Section EffectFacts.
Context {Itp : Interpreter} {Cfg : Config} {Sc : Scorer}.

(** What one run adds to the log: the record of the response, or nothing
    when the run raises. *)
Lemma predict_url_log (data : URLInput) (request : Request)
    (utcnow : string) (w : World) :
  log_file (snd (predict_url data request utcnow w))
  = (log_file w
     ++ match fst (predict_url data request utcnow w) with
        | Ok resp => [audit_of (client request) resp]
        | Raise _ => []
        end)%list.
Proof.
  destruct (extract_base_domain_returns (Py.strip (url data))) as [domain Hd].
  destruct (is_trusted_domain_returns (Py.strip (url data))) as [trusted Ht].
  rewrite (predict_url_run data request utcnow w domain trusted Hd Ht).
  destruct trusted; simpl; [reflexivity|].
  destruct (predict_proba (Py.strip (url data)) (model_state w)) as [[p|e] st];
    simpl; [reflexivity | now rewrite app_nil_r].
Qed.

End EffectFacts.

(** X1. Audit record: when the handler returns a response, the log is the
    earlier log followed by one entry, and that entry carries the
    timestamp, URL, domain, prediction, probability, trust flag,
    thresholds, model version and source of the response, with the host
    of the client. *)
Theorem audit_entry_matches_response (Itp : Interpreter) (Cfg : Config)
    (Sc : Scorer) (data : URLInput) (request : Request) (utcnow : string)
    (w : World) (resp : Response.t) :
  fst (predict_url data request utcnow w) = Ok resp ->
  log_file (snd (predict_url data request utcnow w))
  = (log_file w ++ [audit_of (client request) resp])%list.
Proof. intros Hr. rewrite predict_url_log, Hr. reflexivity. Qed.

Lemma audit_entry_matches_response_witness :
  log_file
    (snd (predict_url (Itp:=no_bracket_validation) (Cfg:=config_03_07)
            (Sc:=counting_scorer f_0_92)
            (mkURLInput "http://secure-paypal-login.example.com")
            (mkRequest (Some "10.0.0.7")) "2024-01-01T00:00:00"
            (mkWorld (Sc:=counting_scorer f_0_92) 0%nat [] [])))
  = [LogEntry.mk "2024-01-01T00:00:00Z" (Some "10.0.0.7")
       "http://secure-paypal-login.example.com"
       "secure-paypal-login.example.com" "malicious" f_0_92 false
       (mkThresholds f_0_3 f_0_7) "v2.0" "model"].
Proof.
  exact (audit_entry_matches_response no_bracket_validation config_03_07
           (counting_scorer f_0_92)
           (mkURLInput "http://secure-paypal-login.example.com")
           (mkRequest (Some "10.0.0.7")) "2024-01-01T00:00:00"
           (mkWorld (Sc:=counting_scorer f_0_92) 0%nat [] [])
           (Response.mk "http://secure-paypal-login.example.com"
              "secure-paypal-login.example.com" false "malicious" f_0_92
              (mkThresholds f_0_3 f_0_7) "v2.0" "model" "2024-01-01T00:00:00Z")
           eq_refl).
Defined.

(** X2. Source of failures: the handler raises an exception exactly when
    the trust check answers false and the scorer raises that exception
    on the stripped URL.  A request for a trusted URL is therefore
    answered whatever the scorer does. *)
Theorem handler_raises_only_from_scorer (Itp : Interpreter) (Cfg : Config)
    (Sc : Scorer) (data : URLInput) (request : Request) (utcnow : string)
    (w : World) (e : exn) :
  fst (predict_url data request utcnow w) = Raise e
  <-> is_trusted_domain (Py.strip (url data)) = Ok false
      /\ exists st : scorer_state,
          predict_proba (Py.strip (url data)) (model_state w) = (Raise e, st).
Proof.
  destruct (extract_base_domain_returns (Py.strip (url data))) as [domain Hd].
  destruct (is_trusted_domain_returns (Py.strip (url data))) as [trusted Ht].
  rewrite (predict_url_run data request utcnow w domain trusted Hd Ht), Ht.
  destruct trusted; simpl.
  - split; [discriminate | intros [[=] _]].
  - destruct (predict_proba (Py.strip (url data)) (model_state w)) as [[p|e'] st];
      simpl.
    + split; [discriminate | intros [_ [st' [=]]]].
    + split.
      * intros [= ->]. split; [reflexivity | now exists st].
      * intros [_ [st' [= -> _]]]. reflexivity.
Qed.

(** X3. Calls of the scorer: one run of the handler calls the scorer once
    on the stripped URL when the trust check answers false, whether the
    call returns or raises, and not at all when it answers true, in which
    case the state of the model is left as it was. *)
Theorem scorer_called_iff_untrusted (Itp : Interpreter) (Cfg : Config)
    (Sc : Scorer) (data : URLInput) (request : Request) (utcnow : string)
    (w : World) (trusted : bool) :
  is_trusted_domain (Py.strip (url data)) = Ok trusted ->
  scorer_calls (snd (predict_url data request utcnow w))
  = (scorer_calls w ++ if trusted then [] else [Py.strip (url data)])%list
  /\ model_state (snd (predict_url data request utcnow w))
     = if trusted then model_state w
       else snd (predict_proba (Py.strip (url data)) (model_state w)).
Proof.
  intros Ht.
  destruct (extract_base_domain_returns (Py.strip (url data))) as [domain Hd].
  rewrite (predict_url_run data request utcnow w domain trusted Hd Ht).
  destruct trusted; simpl; [now rewrite app_nil_r|].
  destruct (predict_proba (Py.strip (url data)) (model_state w)) as [[p|e] st];
    simpl; split; reflexivity.
Qed.

Lemma scorer_called_iff_untrusted_witness :
  scorer_calls
    (snd (predict_url (Itp:=no_bracket_validation) (Cfg:=config_03_07)
            (Sc:=failing_scorer (PyExc "ValueError" "empty vocabulary"))
            (mkURLInput " http://example.org/login ") (mkRequest None)
            "2024-01-01T00:00:00"
            (mkWorld (Sc:=failing_scorer (PyExc "ValueError" "empty vocabulary"))
               tt ["http://a.example/"] [])))
  = ["http://a.example/"; "http://example.org/login"].
Proof.
  exact (proj1 (scorer_called_iff_untrusted no_bracket_validation config_03_07
           (failing_scorer (PyExc "ValueError" "empty vocabulary"))
           (mkURLInput " http://example.org/login ") (mkRequest None)
           "2024-01-01T00:00:00"
           (mkWorld (Sc:=failing_scorer (PyExc "ValueError" "empty vocabulary"))
              tt ["http://a.example/"] [])
           false eq_refl)).
Defined.

(** X4. Coherence of a response: the domain and the trust flag of a
    response are what the resolver and the trust check give on its url
    field; the source is "whitelist" exactly when the flag is set and
    "model" exactly when it is not; and a response with the flag set is
    "benign" with probability 0.01. *)
Theorem response_is_coherent (Itp : Interpreter) (Cfg : Config)
    (Sc : Scorer) (data : URLInput) (request : Request) (utcnow : string)
    (w : World) (resp : Response.t) :
  fst (predict_url data request utcnow w) = Ok resp ->
  extract_base_domain (Response.url resp) = Ok (Response.domain resp)
  /\ is_trusted_domain (Response.url resp) = Ok (Response.trusted_domain resp)
  /\ (Response.source resp = "whitelist" <-> Response.trusted_domain resp = true)
  /\ (Response.source resp = "model" <-> Response.trusted_domain resp = false)
  /\ (Response.trusted_domain resp = true ->
      Response.prediction resp = "benign"
      /\ Response.probability_malicious resp = f_0_01).
Proof.
  destruct (extract_base_domain_returns (Py.strip (url data))) as [domain Hd].
  destruct (is_trusted_domain_returns (Py.strip (url data))) as [trusted Ht].
  rewrite (predict_url_run data request utcnow w domain trusted Hd Ht).
  destruct trusted; simpl.
  - intros [= <-]. simpl. repeat split; auto; discriminate.
  - destruct (predict_proba (Py.strip (url data)) (model_state w)) as [[p|e] st];
      simpl; [|discriminate].
    intros [= <-]. simpl. repeat split; auto; discriminate.
Qed.

Lemma response_is_coherent_witness :
  extract_base_domain (Itp:=no_bracket_validation) "https://www.github.com/login"
  = Ok "github.com"
  /\ is_trusted_domain (Itp:=no_bracket_validation) "https://www.github.com/login"
     = Ok true.
Proof.
  destruct (response_is_coherent no_bracket_validation config_03_07
              (counting_scorer f_0_92)
              (mkURLInput "https://www.github.com/login ") (mkRequest None)
              "2024-01-01T00:00:00"
              (mkWorld (Sc:=counting_scorer f_0_92) 0%nat [] [])
              (Response.mk "https://www.github.com/login" "github.com" true
                 "benign" f_0_01 (mkThresholds f_0_3 f_0_7) "v2.0" "whitelist"
                 "2024-01-01T00:00:00Z")
              eq_refl) as (Hd & Ht & _).
  split; assumption.
Defined.

(** X5. Health endpoint: the thresholds and the model version that
    [root] reports are the ones every response of [predict_url] and every
    log entry it writes carry. *)
Theorem root_reports_the_served_configuration (Itp : Interpreter)
    (Cfg : Config) (Sc : Scorer) (data : URLInput) (request : Request)
    (utcnow : string) (w : World) (resp : Response.t) :
  fst (predict_url data request utcnow w) = Ok resp ->
  Response.thresholds resp = RootResponse.thresholds root
  /\ Response.model_version resp = RootResponse.model_version root
  /\ exists entry : LogEntry.t,
      log_file (snd (predict_url data request utcnow w))
      = (log_file w ++ [entry])%list
      /\ LogEntry.thresholds entry = RootResponse.thresholds root
      /\ LogEntry.model_version entry = RootResponse.model_version root.
Proof.
  intros Hr. rewrite predict_url_log, Hr. revert Hr.
  destruct (extract_base_domain_returns (Py.strip (url data))) as [domain Hd].
  destruct (is_trusted_domain_returns (Py.strip (url data))) as [trusted Ht].
  rewrite (predict_url_run data request utcnow w domain trusted Hd Ht).
  destruct trusted; simpl.
  - intros [= <-]. simpl. repeat split. eexists. repeat split.
  - destruct (predict_proba (Py.strip (url data)) (model_state w)) as [[p|e] st];
      simpl; [|discriminate].
    intros [= <-]. simpl. repeat split. eexists. repeat split.
Qed.

Lemma root_reports_the_served_configuration_witness :
  Response.thresholds
    (Response.mk "https://google.com/" "google.com" true "benign" f_0_01
       (mkThresholds f_0_3 f_0_7) "v2.0" "whitelist" "2024-01-01T00:00:00Z")
  = RootResponse.thresholds (root (Cfg:=config_03_07)).
Proof.
  exact (proj1 (root_reports_the_served_configuration no_bracket_validation
           config_03_07 (counting_scorer f_0_92)
           (mkURLInput "https://google.com/") (mkRequest None)
           "2024-01-01T00:00:00"
           (mkWorld (Sc:=counting_scorer f_0_92) 0%nat [] [])
           _ eq_refl)).
Defined.

(** X6. Audit trail of a run: after any sequence of requests the service
    has answered every request, and the log is the earlier log followed by
    one entry for each request that got a response, in the order of the
    requests; a request that raised leaves no entry. *)
Theorem audit_trail_is_complete (Itp : Interpreter) (Cfg : Config)
    (Sc : Scorer) (calls : list (URLInput * Request * string)) (w : World) :
  length (fst (serve calls w)) = length calls
  /\ log_file (snd (serve calls w))
     = (log_file w ++ audit_trail calls (fst (serve calls w)))%list.
Proof.
  revert w. induction calls as [|[[data request] utcnow] calls IH]; intros w.
  - simpl. split; [reflexivity | now rewrite app_nil_r].
  - simpl.
    pose proof (predict_url_log data request utcnow w) as Hlog.
    destruct (predict_url data request utcnow w) as [r w1]. simpl in Hlog.
    destruct (IH w1) as [Hlen Hrest].
    destruct (serve calls w1) as [rs w2]. simpl in *.
    split; [now rewrite Hlen|].
    rewrite Hrest, Hlog.
    destruct r as [resp|e]; simpl; rewrite <- app_assoc; reflexivity.
Qed.

(** * Further properties of the classification *)

Section FloatTotality.

Local Ltac cases_compare :=
  repeat match goal with
    | |- context [Z.compare ?a ?b] => destruct (Z.compare_spec a b)
    | |- context [Pos.compare ?a ?b] => destruct (Pos.compare_spec a b)
    end;
  simpl; try reflexivity; try discriminate; try lia.

Local Ltac float_cases p :=
  destruct p as [[|]|[|]| |[|] ? ?].

(** Apart from NaN, [a >= b] fails exactly when [a < b]. *)
Lemma fge_false_iff (a b : float) :
  is_nan a = false -> is_nan b = false ->
  (fge a b = false <-> flt a b = true).
Proof.
  unfold fge, flt, SFltb, SFcompare.
  float_cases a; float_cases b; simpl; intros Ha Hb;
    try discriminate; try (split; [reflexivity | discriminate]);
    try (split; [discriminate | reflexivity]);
    try (split; reflexivity); try (split; discriminate);
    destruct (e ?= e0); try destruct (Pos.compare_cont Eq m m0); simpl;
    split; (reflexivity || discriminate).
Qed.

(** Apart from NaN, [a <= b] fails exactly when [b < a]. *)
Lemma fle_false_iff (a b : float) :
  is_nan a = false -> is_nan b = false ->
  (fle a b = false <-> flt b a = true).
Proof.
  unfold fle, flt, SFleb, SFltb, SFcompare.
  change (Pos.compare_cont Eq) with Pos.compare.
  float_cases a; float_cases b; simpl; intros Ha Hb;
    try discriminate; try (split; [reflexivity | discriminate]);
    try (split; [discriminate | reflexivity]);
    try (split; reflexivity); try (split; discriminate);
    split; cases_compare.
Qed.

(** A comparison that holds has no NaN on either side. *)
Lemma fle_not_nan (a b : float) :
  fle a b = true -> is_nan a = false /\ is_nan b = false.
Proof. unfold fle, SFleb, SFcompare. float_cases a; float_cases b; simpl; auto; discriminate. Qed.

End FloatTotality.

Lemma fge_refl (a : float) : is_nan a = false -> fge a a = true.
Proof.
  unfold fge, SFcompare. change (Pos.compare_cont Eq) with Pos.compare.
  destruct a as [[|]|[|]| |[|] m e]; simpl; try reflexivity; try discriminate;
    intros _; rewrite Z.compare_refl, Pos.compare_refl; reflexivity.
Qed.

(** Configurations used in the examples below: a NaN threshold, and the
    two thresholds at the same value. *)
Lemma nan_never_compares (a : float) :
  fge S754_nan a = false /\ fle S754_nan a = false
  /\ fge a S754_nan = false /\ fle a S754_nan = false.
Proof. destruct a as [[|]|[|]| |[|] m e]; repeat split. Qed.

(** X7. NaN: a NaN probability is "suspicious" under every pair of
    thresholds; with a NaN malicious threshold no probability is
    "malicious", and with a NaN safe threshold none is "benign". *)
Theorem nan_is_suspicious (Cfg : Config) :
  classify_proba S754_nan = "suspicious"
  /\ (is_nan T_MAL = true -> forall p, classify_proba p <> "malicious")
  /\ (is_nan T_SAFE = true -> forall p, classify_proba p <> "benign").
Proof.
  unfold classify_proba. split; [|split].
  - destruct (nan_never_compares T_MAL) as (-> & _).
    destruct (nan_never_compares T_SAFE) as (_ & -> & _). reflexivity.
  - intros Hn p. destruct T_MAL; try discriminate.
    destruct (nan_never_compares p) as (_ & _ & -> & _).
    destruct (fle p T_SAFE); discriminate.
  - intros Hn p. destruct T_SAFE; try discriminate.
    destruct (nan_never_compares p) as (_ & _ & _ & ->).
    destruct (fge p T_MAL); discriminate.
Qed.

Lemma nan_is_suspicious_witness :
  classify_proba (Cfg:={| T_SAFE := f_0_3; T_MAL := S754_nan; MODEL_VERSION := "v2.0" |})
    f_1_0 <> "malicious".
Proof.
  exact (proj1 (proj2 (nan_is_suspicious
           {| T_SAFE := f_0_3; T_MAL := S754_nan; MODEL_VERSION := "v2.0" |}))
         eq_refl f_1_0).
Defined.

(** X8. Crossed or equal thresholds: when the malicious threshold is at
    most the safe threshold, no probability other than NaN is
    "suspicious": each one is "malicious" or "benign", and a probability
    equal to the malicious threshold is "malicious" even though it is
    also at most the safe threshold. *)
Theorem no_suspicious_band_when_thresholds_meet (Cfg : Config) (p : float) :
  fle T_MAL T_SAFE = true ->
  is_nan p = false ->
  (classify_proba p = "malicious" \/ classify_proba p = "benign")
  /\ classify_proba T_MAL = "malicious".
Proof.
  intros Hts Hp. destruct (fle_not_nan _ _ Hts) as [Hm Hs].
  split.
  - unfold classify_proba. destruct (fge p T_MAL) eqn:Hge; [now left|].
    apply (fge_false_iff _ _ Hp Hm) in Hge.
    rewrite (fle_mono _ _ _ Hge Hts). now right.
  - apply classify_proba_malicious, fge_refl, Hm.
Qed.

Lemma no_suspicious_band_when_thresholds_meet_witness :
  (classify_proba
     (Cfg:={| T_SAFE := f_0_5; T_MAL := f_0_5; MODEL_VERSION := "v2.0" |}) f_0_3
   = "malicious"
   \/ classify_proba
        (Cfg:={| T_SAFE := f_0_5; T_MAL := f_0_5; MODEL_VERSION := "v2.0" |}) f_0_3
      = "benign")
  /\ classify_proba
       (Cfg:={| T_SAFE := f_0_5; T_MAL := f_0_5; MODEL_VERSION := "v2.0" |}) f_0_5
     = "malicious".
Proof.
  exact (no_suspicious_band_when_thresholds_meet
           {| T_SAFE := f_0_5; T_MAL := f_0_5; MODEL_VERSION := "v2.0" |}
           f_0_3 eq_refl eq_refl).
Defined.

(** X9. The three bands: when neither the probability nor a threshold is
    NaN, the label is "benign" exactly when [p <= T_SAFE] and
    [p < T_MAL], and "suspicious" exactly when [T_SAFE < p < T_MAL]. *)
Theorem classification_bands (Cfg : Config) (p : float) :
  is_nan p = false -> is_nan T_SAFE = false -> is_nan T_MAL = false ->
  (classify_proba p = "benign"
   <-> fle p T_SAFE = true /\ flt p T_MAL = true)
  /\ (classify_proba p = "suspicious"
      <-> flt T_SAFE p = true /\ flt p T_MAL = true).
Proof.
  intros Hp Hs Hm.
  pose proof (fge_false_iff p T_MAL Hp Hm) as Hge.
  pose proof (fle_false_iff p T_SAFE Hp Hs) as Hle.
  unfold classify_proba.
  destruct (fge p T_MAL) eqn:Hg.
  - destruct (flt p T_MAL) eqn:Hlt;
      [destruct Hge as [_ Hge]; discriminate (Hge eq_refl)|].
    split; split; try discriminate; intros [_ [=]].
  - rewrite (proj1 Hge eq_refl).
    destruct (fle p T_SAFE) eqn:Hl.
    + destruct (flt T_SAFE p) eqn:Hlt;
        [destruct Hle as [_ Hle]; discriminate (Hle eq_refl)|].
      split; split; auto; try discriminate. intros [[=] _].
    + rewrite (proj1 Hle eq_refl).
      split; split; auto; try discriminate. intros [[=] _].
Qed.

Lemma classification_bands_witness :
  classify_proba (Cfg:=config_03_07) f_0_5 = "suspicious".
Proof.
  apply (proj2 (classification_bands config_03_07 f_0_5 eq_refl eq_refl eq_refl)).
  split; reflexivity.
Defined.

(** * Further properties of the resolver and of the trust check *)

(** ** Characters and strings *)

Lemma lower_char_idem (c : ascii) : Py.lower_char (Py.lower_char c) = Py.lower_char c.
Proof. destruct c as [[] [] [] [] [] [] [] []]; reflexivity. Qed.

(** Characters that [lower] neither changes nor produces:
    the punctuation the parser and the statements look for. *)
Lemma lower_char_keeps (c : ascii) :
  Ascii.eqb "/" (Py.lower_char c) = Ascii.eqb "/" c
  /\ Ascii.eqb "[" (Py.lower_char c) = Ascii.eqb "[" c
  /\ Ascii.eqb "]" (Py.lower_char c) = Ascii.eqb "]" c
  /\ Ascii.eqb ":" (Py.lower_char c) = Ascii.eqb ":" c
  /\ Ascii.eqb "@" (Py.lower_char c) = Ascii.eqb "@" c.
Proof. destruct c as [[] [] [] [] [] [] [] []]; repeat split. Qed.

Lemma alpha_not_c0 (c : ascii) :
  urllib.ascii_alpha c = true -> urllib.c0_control_or_space c = false.
Proof. destruct c as [[] [] [] [] [] [] [] []]; vm_compute; congruence. Qed.

(** A scheme character is neither a colon nor one of the characters the
    parser removes. *)
Lemma scheme_char_plain (c : ascii) :
  urllib.scheme_char c = true ->
  Ascii.eqb ":" c = false /\ Ascii.eqb "009" c = false
  /\ Ascii.eqb "013" c = false /\ Ascii.eqb "010" c = false.
Proof. destruct c as [[] [] [] [] [] [] [] []]; vm_compute; intuition congruence. Qed.

Lemma netloc_char_plain (c : ascii) :
  netloc_char c = true ->
  is_delim c = false /\ Ascii.eqb "[" c = false /\ Ascii.eqb "]" c = false
  /\ Ascii.eqb "009" c = false /\ Ascii.eqb "013" c = false
  /\ Ascii.eqb "010" c = false.
Proof. destruct c as [[] [] [] [] [] [] [] []]; vm_compute; intuition congruence. Qed.

Lemma delim_kept (c : ascii) :
  is_delim c = true ->
  Ascii.eqb "009" c = false /\ Ascii.eqb "013" c = false
  /\ Ascii.eqb "010" c = false.
Proof. destruct c as [[] [] [] [] [] [] [] []]; vm_compute; intuition congruence. Qed.

Section StringFacts.

Lemma lower_idem (s : string) : Py.lower (Py.lower s) = Py.lower s.
Proof. induction s as [|c s IH]; simpl; [reflexivity|]. now rewrite lower_char_idem, IH. Qed.

Lemma lower_slice_from (n : nat) (s : string) :
  Py.lower (Py.slice_from n s) = Py.slice_from n (Py.lower s).
Proof.
  revert s. induction n as [|n IH]; intros [|c s]; simpl; auto.
Qed.

Lemma lower_append (s t : string) :
  Py.lower (s +:+ t) = Py.lower s +:+ Py.lower t.
Proof.
  induction s as [|c s IH]; [reflexivity|].
  rewrite append_cons. simpl. rewrite IH. reflexivity.
Qed.

Lemma contains_slice_from (c : ascii) (n : nat) (s : string) :
  Py.contains c (Py.slice_from n s) = true -> Py.contains c s = true.
Proof.
  revert s. induction n as [|n IH]; intros [|d s]; simpl; auto.
  intros Hc. rewrite (IH _ Hc). apply orb_true_r.
Qed.

Lemma contains_remove (c d : ascii) (s : string) :
  Py.contains c (Py.remove d s) = true -> Py.contains c s = true.
Proof.
  induction s as [|a s IH]; simpl; [auto|].
  destruct (Ascii.eqb d a); simpl.
  - intros Hc. rewrite (IH Hc). apply orb_true_r.
  - destruct (Ascii.eqb c a); simpl; auto.
Qed.

Lemma contains_lstrip_by (c : ascii) (p : ascii -> bool) (s : string) :
  Py.contains c (Py.lstrip_by p s) = true -> Py.contains c s = true.
Proof.
  induction s as [|a s IH]; simpl; [auto|].
  destruct (p a); simpl; [|auto].
  intros Hc. rewrite (IH Hc). apply orb_true_r.
Qed.

Lemma contains_until_delim (c : ascii) (s : string) :
  Py.contains c (until_delim s) = true -> Py.contains c s = true.
Proof.
  induction s as [|a s IH]; simpl; [auto|].
  destruct (is_delim a); simpl; [discriminate|].
  destruct (Ascii.eqb c a); simpl; auto.
Qed.

Lemma until_delim_no_slash (s : string) : Py.contains "/" (until_delim s) = false.
Proof.
  induction s as [|a s IH]; [reflexivity|].
  cbn [until_delim].
  destruct (is_delim a) eqn:Hd; [reflexivity|].
  cbn [Py.contains]. rewrite IH. unfold is_delim in Hd.
  apply orb_false_iff in Hd as [Hd _]. apply orb_false_iff in Hd as [-> _].
  reflexivity.
Qed.

Lemma contains_lower (c : ascii) (s : string) :
  (forall a, Ascii.eqb c (Py.lower_char a) = Ascii.eqb c a) ->
  Py.contains c (Py.lower s) = Py.contains c s.
Proof.
  intros Hk. induction s as [|a s IH]; simpl; [reflexivity|].
  now rewrite Hk, IH.
Qed.

Lemma contains_append (c : ascii) (s t : string) :
  Py.contains c (s +:+ t) = Py.contains c s || Py.contains c t.
Proof.
  induction s as [|a s IH]; [reflexivity|].
  rewrite append_cons. simpl. rewrite IH. apply orb_assoc.
Qed.

Lemma slice_to_until_delim (s : string) :
  Py.slice_to (String.length (until_delim s)) s = until_delim s.
Proof.
  induction s as [|a s IH]; simpl; [reflexivity|].
  destruct (is_delim a); simpl; [reflexivity | now rewrite IH].
Qed.

Lemma slice_from_until_delim (s : string) :
  Py.slice_from (String.length (until_delim s)) s = from_delim s.
Proof.
  induction s as [|a s IH]; simpl; [reflexivity|].
  destruct (is_delim a); simpl; [reflexivity | exact IH].
Qed.

Lemma until_delim_length (s : string) :
  (String.length (until_delim s) <= String.length s)%nat.
Proof.
  induction s as [|a s IH]; simpl; [lia|].
  destruct (is_delim a); simpl; lia.
Qed.

(** A delimiter is not found before the end of the delimiter-free
    prefix. *)
Lemma find_at_lower_bound (x : ascii) (s : string) (pos : Z) :
  is_delim x = true ->
  Py.find_at x s pos = -1
  \/ pos + Z.of_nat (String.length (until_delim s)) <= Py.find_at x s pos.
Proof.
  intros Hx. revert pos. induction s as [|a s IH]; intros pos; simpl; [now left|].
  destruct (Ascii.eqb x a) eqn:Hxa.
  - apply Ascii.eqb_eq in Hxa. subst a. rewrite Hx. simpl. right. lia.
  - destruct (IH (pos + 1)) as [Hn|Hb]; [now left|].
    right. destruct (is_delim a); simpl; lia.
Qed.

(** Either there is no delimiter, or one of them is found right after
    the delimiter-free prefix. *)
Lemma find_at_hits (s : string) (pos : Z) :
  (until_delim s = s
   /\ Py.find_at "/" s pos = -1 /\ Py.find_at "?" s pos = -1
   /\ Py.find_at "#" s pos = -1)
  \/ Py.find_at "/" s pos = pos + Z.of_nat (String.length (until_delim s))
  \/ Py.find_at "?" s pos = pos + Z.of_nat (String.length (until_delim s))
  \/ Py.find_at "#" s pos = pos + Z.of_nat (String.length (until_delim s)).
Proof.
  revert pos. induction s as [|a s IH]; intros pos; [now left|].
  cbn [Py.find_at until_delim]. unfold is_delim.
  destruct (Ascii.eqb "/" a) eqn:H1;
    [right; left; cbn [orb String.length]; lia|].
  destruct (Ascii.eqb "?" a) eqn:H2;
    [right; right; left; cbn [orb String.length]; lia|].
  destruct (Ascii.eqb "#" a) eqn:H3;
    [right; right; right; cbn [orb String.length]; lia|].
  cbn [orb String.length].
  destruct (IH (pos + 1)) as [(Hu & Ha & Hb & Hc)|[Hf|[Hf|Hf]]].
  - left. rewrite Hu. auto.
  - right; left. lia.
  - right; right; left. lia.
  - right; right; right. lia.
Qed.

(** [_splitnetloc] at offset 2: the network location is the
    delimiter-free prefix of what follows the two slashes. *)
Lemma splitnetloc_2 (a b : ascii) (s : string) :
  urllib.splitnetloc (String a (String b s)) 2 = (until_delim s, from_delim s).
Proof.
  unfold urllib.splitnetloc, Py.find, Py.slice.
  change (Py.slice_from 2 (String a (String b s))) with s.
  change (Z.of_nat 2) with 2.
  set (n := String.length (until_delim s)).
  assert (Hd :
    fold_left
      (fun (delim : Z) (c : ascii) =>
         if Py.find_at c s 2 >=? 0
         then Z.min delim (Py.find_at c s 2)
         else delim)
      ["/"; "?"; "#"]%char
      (Z.of_nat (String.length (String a (String b s))))
    = 2 + Z.of_nat n).
  { cbn [fold_left].
    pose proof (until_delim_length s) as Hlen. fold n in Hlen.
    pose proof (find_at_lower_bound "/" s 2 eq_refl) as B1.
    pose proof (find_at_lower_bound "?" s 2 eq_refl) as B2.
    pose proof (find_at_lower_bound "#" s 2 eq_refl) as B3.
    pose proof (find_at_hits s 2) as Hh. fold n in B1, B2, B3, Hh.
    assert (HL : Z.of_nat (String.length (String a (String b s)))
                 = 2 + Z.of_nat (String.length s)) by (simpl; lia).
    rewrite HL.
    assert (Hfull : until_delim s = s -> n = String.length s)
      by (intros Hu; unfold n; now rewrite Hu).
    destruct (Z.geb_spec (Py.find_at "/" s 2) 0);
      destruct (Z.geb_spec (Py.find_at "?" s 2) 0);
      destruct (Z.geb_spec (Py.find_at "#" s 2) 0);
      destruct Hh as [(Hu & Ha & Hb & Hc)|[Hf|[Hf|Hf]]];
      try specialize (Hfull Hu); lia. }
  rewrite Hd.
  replace (Z.to_nat (2 + Z.of_nat n)) with (S (S n)) by lia.
  simpl. unfold n.
  now rewrite slice_to_until_delim, slice_from_until_delim.
Qed.

End StringFacts.

(** ** What the parser returns *)

Section ParserFacts.
Context {Itp : Interpreter}.

Lemma starts_two_slashes (u : string) :
  String.eqb (Py.slice_to 2 u) "//" = true ->
  exists s, u = String "/" (String "/" s).
Proof.
  destruct u as [|a [|b s]]; intros He; apply String.eqb_eq in He;
    try discriminate.
  cbn [Py.slice_to] in He. injection He as -> ->. now exists s.
Qed.

Lemma Ok_inj {A} (a b : A) : Ok a = Ok b -> a = b.
Proof. now intros [=]. Qed.

Lemma contains_cons (c a : ascii) (s : string) :
  Py.contains c s = true -> Py.contains c (String a s) = true.
Proof. intros Hc. cbn [Py.contains]. rewrite Hc. apply orb_true_r. Qed.

Lemma isascii_lower_char (c : ascii) :
  Py.isascii_char (Py.lower_char c) = Py.isascii_char c.
Proof. destruct c as [[] [] [] [] [] [] [] []]; reflexivity. Qed.

Lemma isascii_lower (s : string) : Py.isascii (Py.lower s) = Py.isascii s.
Proof.
  unfold Py.isascii. induction s as [|a s IH]; [reflexivity|].
  cbn [Py.lower Py.all_chars]. now rewrite isascii_lower_char, IH.
Qed.

Lemma all_chars_slice_from (q : ascii -> bool) (n : nat) (s : string) :
  Py.all_chars q s = true -> Py.all_chars q (Py.slice_from n s) = true.
Proof.
  revert s. induction n as [|n IH]; intros [|a s]; cbn [Py.slice_from Py.all_chars];
    auto.
  intros Hq. apply andb_true_iff in Hq as [_ Hs]. auto.
Qed.

Lemma all_chars_remove (q : ascii -> bool) (d : ascii) (s : string) :
  Py.all_chars q s = true -> Py.all_chars q (Py.remove d s) = true.
Proof.
  induction s as [|a s IH]; [auto|].
  cbn [Py.remove Py.all_chars]. intros Hq.
  apply andb_true_iff in Hq as [Ha Hs].
  destruct (Ascii.eqb d a); [auto|].
  cbn [Py.all_chars]. now rewrite Ha, (IH Hs).
Qed.

Lemma all_chars_lstrip_by (q p : ascii -> bool) (s : string) :
  Py.all_chars q s = true -> Py.all_chars q (Py.lstrip_by p s) = true.
Proof.
  induction s as [|a s IH]; [auto|].
  cbn [Py.lstrip_by]. intros Hq.
  destruct (p a); [|exact Hq].
  cbn [Py.all_chars] in Hq. apply andb_true_iff in Hq as [_ Hs]. auto.
Qed.

Lemma all_chars_until_delim (q : ascii -> bool) (s : string) :
  Py.all_chars q s = true -> Py.all_chars q (until_delim s) = true.
Proof.
  induction s as [|a s IH]; [auto|].
  cbn [until_delim Py.all_chars]. intros Hq.
  apply andb_true_iff in Hq as [Ha Hs].
  destruct (is_delim a); [reflexivity|].
  cbn [Py.all_chars]. now rewrite Ha, (IH Hs).
Qed.

(** A network location holds no slash, and an exception is raised only
    for a URL with a square bracket or with a character that is not
    ASCII. *)
Lemma urlsplit_facts (url : string) :
  match urllib.urlsplit url with
  | Ok parsed => Py.contains "/" (netloc parsed) = false
  | Raise _ =>
      Py.contains "[" url || Py.contains "]" url || negb (Py.isascii url) = true
  end.
Proof.
  unfold urllib.urlsplit.
  remember (Py.remove "010" (Py.remove "013" (Py.remove "009"
              (Py.lstrip_by urllib.c0_control_or_space url)))) as u1 eqn:Hu1.
  assert (H1 : forall c, Py.contains c u1 = true -> Py.contains c url = true).
  { intros c Hc. subst u1. do 3 apply contains_remove in Hc.
    now apply contains_lstrip_by in Hc. }
  assert (A1 : Py.isascii url = true -> Py.isascii u1 = true).
  { intros Ha. subst u1. unfold Py.isascii.
    now do 3 apply all_chars_remove; apply all_chars_lstrip_by. }
  clear Hu1.
  assert (Htail : forall (sc u2 : string),
    (forall c, Py.contains c u2 = true -> Py.contains c url = true) ->
    (Py.isascii url = true -> Py.isascii u2 = true) ->
    match
      (do located <-
         (if String.eqb (Py.slice_to 2 u2) "//" then
            let '(netloc, url0) := urllib.splitnetloc u2 2 in
            let has_open := Py.contains "[" netloc in
            let has_close := Py.contains "]" netloc in
            if (has_open && negb has_close) || (has_close && negb has_open)
            then Raise urllib.invalid_ipv6
            else
              do _ <- (if has_open && has_close
                       then check_bracketed_netloc netloc
                       else Ok tt);
              Ok (netloc, url0)
          else Ok ("", u2));
       let '(netloc, url0) := located : string * string in
       do _ <- urllib.checknetloc netloc;
       Ok (mkParseResult sc netloc url0))
    with
    | Ok parsed => Py.contains "/" (netloc parsed) = false
    | Raise _ =>
        Py.contains "[" url || Py.contains "]" url || negb (Py.isascii url) = true
    end).
  { intros sc u2 H2 A2.
    destruct (String.eqb (Py.slice_to 2 u2) "//") eqn:He; [|reflexivity].
    destruct (starts_two_slashes _ He) as [s ->].
    rewrite splitnetloc_2. cbv beta iota zeta.
    assert (Hopen : Py.contains "[" (until_delim s) = true ->
                    Py.contains "[" url = true).
    { intros Hc. apply H2. do 2 apply contains_cons.
      now apply contains_until_delim. }
    assert (Hclose : Py.contains "]" (until_delim s) = true ->
                     Py.contains "]" url = true).
    { intros Hc. apply H2. do 2 apply contains_cons.
      now apply contains_until_delim. }
    assert (Hcheck :
      match (do _ <- urllib.checknetloc (until_delim s);
             Ok (mkParseResult sc (until_delim s) (from_delim s))) with
      | Ok parsed => Py.contains "/" (netloc parsed) = false
      | Raise _ =>
          Py.contains "[" url || Py.contains "]" url || negb (Py.isascii url) = true
      end).
    { unfold urllib.checknetloc.
      destruct (String.eqb (until_delim s) "" || Py.isascii (until_delim s))
        eqn:Hasc; cbn [rbind]; [apply until_delim_no_slash|].
      destruct (check_nfkc (until_delim s)) as [[]|e]; cbn [rbind];
        [apply until_delim_no_slash|].
      apply orb_false_iff in Hasc as [_ Hasc].
      destruct (Py.isascii url) eqn:Hu; [|apply orb_true_r].
      specialize (A2 eq_refl). unfold Py.isascii in A2.
      cbn [Py.all_chars] in A2.
      apply andb_true_iff in A2 as [_ A2]. apply andb_true_iff in A2 as [_ A2].
      apply (all_chars_until_delim Py.isascii_char) in A2.
      unfold Py.isascii in Hasc. congruence. }
    destruct (Py.contains "[" (until_delim s)) eqn:Ho;
      destruct (Py.contains "]" (until_delim s)) eqn:Hc; cbn [andb orb negb].
    - destruct (check_bracketed_netloc (until_delim s)) as [[]|e]; cbn [rbind].
      + exact Hcheck.
      + now rewrite (Hopen eq_refl).
    - cbn [rbind]. now rewrite (Hopen eq_refl).
    - cbn [rbind]. rewrite (Hclose eq_refl), orb_true_r. reflexivity.
    - cbn [rbind]. exact Hcheck. }
  match goal with
  | |- context [if ?c then (_, _) else _] => destruct c
  end.
  - apply Htail.
    + intros c Hc. apply H1. now apply contains_slice_from in Hc.
    + intros Ha. unfold Py.isascii. apply all_chars_slice_from. now apply A1.
  - apply Htail; assumption.
Qed.

(** The resolver answers a string with a slash only through its
    fallback, and then the string has a square bracket or a character
    that is not ASCII. *)
Lemma resolved_slash (url domain : string) :
  extract_base_domain url = Ok domain ->
  Py.contains "/" domain = true ->
  domain = Py.lower url
  /\ Py.contains "[" domain || Py.contains "]" domain
     || negb (Py.isascii domain) = true.
Proof.
  pose proof (urlsplit_facts url) as Hf.
  change (urllib.urlsplit url) with (urllib.urlparse url) in Hf.
  destruct (urllib.urlparse url) as [parsed|e] eqn:Hp.
  - rewrite (extract_base_domain_parsed _ _ Hp). unfold without_www.
    intros Heq Hs. apply Ok_inj in Heq. subst domain. exfalso.
    assert (Hl : Py.contains "/" (Py.lower (netloc parsed)) = false).
    { rewrite contains_lower; [exact Hf|]. intros a. apply lower_char_keeps. }
    destruct (Py.startswith (Py.lower (netloc parsed)) "www.").
    + apply contains_slice_from in Hs. congruence.
    + congruence.
  - rewrite (extract_base_domain_fallback _ _ Hp).
    intros [= <-] _. split; [reflexivity|].
    rewrite isascii_lower.
    rewrite !contains_lower; [exact Hf| |]; intros a; apply lower_char_keeps.
Qed.

End ParserFacts.

(** ** URLs with a scheme and a network location *)

Section WellFormed.
Context {Itp : Interpreter}.

Lemma remove_append (d : ascii) (s t : string) :
  Py.remove d (s +:+ t) = Py.remove d s +:+ Py.remove d t.
Proof.
  induction s as [|a s IH]; [reflexivity|].
  rewrite append_cons. cbn [Py.remove]. rewrite IH.
  destruct (Ascii.eqb d a); [reflexivity | now rewrite append_cons].
Qed.

Lemma remove_absent (q : ascii -> bool) (d : ascii) (s : string) :
  (forall c, q c = true -> Ascii.eqb d c = false) ->
  Py.all_chars q s = true -> Py.remove d s = s.
Proof.
  intros Hq. induction s as [|a s IH]; [reflexivity|].
  cbn [Py.all_chars Py.remove]. intros Hall.
  apply andb_true_iff in Hall as [Ha Hs].
  now rewrite (Hq a Ha), (IH Hs).
Qed.

Lemma contains_absent (q : ascii -> bool) (d : ascii) (s : string) :
  (forall c, q c = true -> Ascii.eqb d c = false) ->
  Py.all_chars q s = true -> Py.contains d s = false.
Proof.
  intros Hq. induction s as [|a s IH]; [reflexivity|].
  cbn [Py.all_chars Py.contains]. intros Hall.
  apply andb_true_iff in Hall as [Ha Hs].
  now rewrite (Hq a Ha), (IH Hs).
Qed.

Lemma find_at_append (q : ascii -> bool) (d : ascii) (s t : string) (pos : Z) :
  (forall c, q c = true -> Ascii.eqb d c = false) ->
  Py.all_chars q s = true ->
  Py.find_at d (s +:+ String d t) pos = pos + Z.of_nat (String.length s).
Proof.
  intros Hq. revert pos. induction s as [|a s IH]; intros pos.
  - intros _. rewrite append_empty. cbn [Py.find_at String.length].
    rewrite Ascii.eqb_refl. lia.
  - cbn [Py.all_chars]. intros Hall.
    apply andb_true_iff in Hall as [Ha Hs].
    rewrite append_cons. cbn [Py.find_at String.length].
    rewrite (Hq a Ha), (IH _ Hs). lia.
Qed.

Lemma slice_to_append (s t : string) :
  Py.slice_to (String.length s) (s +:+ t) = s.
Proof.
  induction s as [|a s IH]; [now destruct t|].
  rewrite append_cons. cbn [String.length Py.slice_to]. now rewrite IH.
Qed.

Lemma slice_from_append (s t : string) :
  Py.slice_from (String.length s) (s +:+ t) = t.
Proof.
  induction s as [|a s IH]; [reflexivity|].
  rewrite append_cons. cbn [String.length Py.slice_from]. exact IH.
Qed.

Lemma until_delim_append (h rest : string) :
  Py.all_chars netloc_char h = true -> after_netloc rest = true ->
  until_delim (h +:+ rest) = h /\ from_delim (h +:+ rest) = rest.
Proof.
  intros Hh Hr. induction h as [|a h IH].
  - rewrite append_empty. destruct rest as [|c rest]; [now split|].
    cbn [after_netloc] in Hr. cbn [until_delim from_delim]. rewrite Hr. now split.
  - cbn [Py.all_chars] in Hh. apply andb_true_iff in Hh as [Ha Hh].
    destruct (netloc_char_plain a Ha) as (Hd & _).
    rewrite append_cons. cbn [until_delim from_delim]. rewrite Hd.
    destruct (IH Hh) as [-> ->]. now split.
Qed.

(** The three removals of the parser leave what can follow a network
    location in that form. *)
Lemma after_netloc_remove (d : ascii) (rest : string) :
  Ascii.eqb d "009" || Ascii.eqb d "013" || Ascii.eqb d "010" = true ->
  after_netloc rest = true -> after_netloc (Py.remove d rest) = true.
Proof.
  intros Hd. destruct rest as [|c rest]; [reflexivity|].
  cbn [after_netloc Py.remove]. intros Hc.
  destruct (delim_kept c Hc) as (H1 & H2 & H3).
  assert (He : Ascii.eqb d c = false).
  { destruct (Ascii.eqb d c) eqn:E; [|reflexivity].
    apply Ascii.eqb_eq in E. subst d.
    rewrite (Ascii.eqb_sym c "009"), (Ascii.eqb_sym c "013"),
      (Ascii.eqb_sym c "010"), H1, H2, H3 in Hd. discriminate. }
  rewrite He. exact Hc.
Qed.

(** The parser on a scheme, a colon, two slashes, a network location and
    a rest. *)
Lemma urlsplit_well_formed (sch h rest : string) :
  urllib.first_char_is urllib.ascii_alpha sch = true ->
  Py.all_chars urllib.scheme_char sch = true ->
  Py.all_chars netloc_char h = true ->
  Py.isascii h = true ->
  after_netloc rest = true ->
  exists rest',
    urllib.urlsplit (sch +:+ String ":" (String "/" (String "/" (h +:+ rest))))
    = Ok (mkParseResult (Py.lower sch) h rest').
Proof.
  intros Hfirst Hsch Hh Hascii Hrest.
  set (r1 := Py.remove "010" (Py.remove "013" (Py.remove "009" rest))).
  assert (Hr1 : after_netloc r1 = true)
    by (unfold r1; repeat apply after_netloc_remove; auto).
  exists (from_delim (h +:+ r1)).
  unfold urllib.urlsplit.
  (* nothing is stripped in front *)
  assert (Hl : forall t, Py.lstrip_by urllib.c0_control_or_space (sch +:+ t)
                         = sch +:+ t).
  { intros t. destruct sch as [|a sch']; [discriminate|].
    rewrite append_cons. cbn [Py.lstrip_by].
    cbn [urllib.first_char_is] in Hfirst. now rewrite (alpha_not_c0 a Hfirst). }
  rewrite Hl.
  (* the removals reach the rest only *)
  assert (Hrm : forall d r,
    Ascii.eqb d "009" || Ascii.eqb d "013" || Ascii.eqb d "010" = true ->
    Py.remove d (sch +:+ String ":" (String "/" (String "/" (h +:+ r))))
    = sch +:+ String ":" (String "/" (String "/" (h +:+ Py.remove d r)))).
  { intros d r Hd.
    assert (Hdc : forall c, Ascii.eqb d c = true ->
              Ascii.eqb "009" c || Ascii.eqb "013" c || Ascii.eqb "010" c = true).
    { intros c E. apply Ascii.eqb_eq in E. subst c.
      now rewrite (Ascii.eqb_sym "009" d), (Ascii.eqb_sym "013" d),
        (Ascii.eqb_sym "010" d). }
    assert (Hnot : forall c,
              Ascii.eqb "009" c = false -> Ascii.eqb "013" c = false ->
              Ascii.eqb "010" c = false -> Ascii.eqb d c = false).
    { intros c H1 H2 H3. destruct (Ascii.eqb d c) eqn:E; [|reflexivity].
      apply Hdc in E. rewrite H1, H2, H3 in E. discriminate. }
    rewrite remove_append.
    rewrite (remove_absent urllib.scheme_char d sch); [|
      intros c Hc; destruct (scheme_char_plain c Hc) as (_ & ? & ? & ?); auto | exact Hsch].
    cbn [Py.remove].
    rewrite (Hnot ":"%char), (Hnot "/"%char) by reflexivity.
    rewrite remove_append.
    rewrite (remove_absent netloc_char d h); [reflexivity| | exact Hh].
    intros c Hc. destruct (netloc_char_plain c Hc) as (_ & _ & _ & ? & ? & ?); auto. }
  rewrite !Hrm by reflexivity. fold r1.
  (* the scheme *)
  unfold Py.find. cbn [Py.slice_from]. change (Z.of_nat 0) with 0.
  rewrite (find_at_append urllib.scheme_char ":"%char sch); [|
    intros c Hc; now destruct (scheme_char_plain c Hc) | exact Hsch].
  replace (Z.to_nat (0 + Z.of_nat (String.length sch))) with (String.length sch)
    by lia.
  replace (Z.to_nat (0 + Z.of_nat (String.length sch) + 1))
    with (S (String.length sch)) by lia.
  rewrite slice_to_append, Hsch.
  assert (Hpos : (0 + Z.of_nat (String.length sch) >? 0) = true).
  { apply Z.gtb_lt. destruct sch; [discriminate|]. cbn [String.length]. lia. }
  rewrite Hpos.
  assert (Hf : urllib.first_char_is urllib.ascii_alpha
                 (sch +:+ String ":" (String "/" (String "/" (h +:+ r1)))) = true).
  { destruct sch; [discriminate|]. rewrite append_cons. exact Hfirst. }
  rewrite Hf. cbn [andb].
  assert (Hsf : Py.slice_from (S (String.length sch))
                  (sch +:+ String ":" (String "/" (String "/" (h +:+ r1))))
                = String "/" (String "/" (h +:+ r1))).
  { clear. induction sch as [|a s IH]; [reflexivity|].
    rewrite append_cons. cbn [String.length Py.slice_from]. exact IH. }
  rewrite Hsf.
  change (Py.slice_to 2 (String "/" (String "/" (h +:+ r1)))) with "//".
  rewrite String.eqb_refl, splitnetloc_2.
  destruct (until_delim_append h r1 Hh Hr1) as [-> _].
  rewrite (contains_absent netloc_char "["%char h),
    (contains_absent netloc_char "]"%char h);
    try exact Hh;
    try (intros c Hc; destruct (netloc_char_plain c Hc) as (_ & ? & ? & _); auto).
  cbn [andb orb negb rbind]. unfold urllib.checknetloc.
  rewrite Hascii, orb_true_r. reflexivity.
Qed.

(** The resolver on such a URL. *)
Lemma resolve_well_formed (sch h rest : string) :
  urllib.first_char_is urllib.ascii_alpha sch = true ->
  Py.all_chars urllib.scheme_char sch = true ->
  Py.all_chars netloc_char h = true ->
  Py.isascii h = true ->
  after_netloc rest = true ->
  extract_base_domain (sch +:+ "://" +:+ h +:+ rest)
  = Ok (without_www (Py.lower h)).
Proof.
  intros Hfirst Hsch Hh Hascii Hrest.
  destruct (urlsplit_well_formed sch h rest Hfirst Hsch Hh Hascii Hrest)
    as [rest' Hp].
  apply (extract_base_domain_parsed _ (mkParseResult (Py.lower sch) h rest')).
  exact Hp.
Qed.

End WellFormed.

(** ** The trusted set as configured *)

Lemma existsb_guard_false {A} (P Q : A -> bool) (l : list A) :
  forallb (fun x => negb (P x)) l = true ->
  existsb (fun x => P x && Q x) l = false.
Proof.
  induction l as [|x l IH]; simpl; [reflexivity|].
  intros Hall. apply andb_true_iff in Hall as [Hx Hl].
  apply negb_true_iff in Hx. rewrite Hx, (IH Hl). reflexivity.
Qed.

Lemma gset_forallb (f : string -> bool) (X : gset string) (x : string) :
  forallb f (elements X) = true -> x ∈ X -> f x = true.
Proof.
  intros Hall Hin. rewrite forallb_forall in Hall. apply Hall.
  apply list_elem_of_In, elem_of_elements, Hin.
Qed.

Section ConfiguredTrust.
Context {Itp : Interpreter}.

(** As configured, the loop over the suffix entries finds nothing. *)
Lemma is_trusted_domain_member (url domain : string) :
  extract_base_domain url = Ok domain ->
  is_trusted_domain url = Ok (bool_decide (domain ∈ TRUSTED_DOMAINS)).
Proof.
  intros Hd. unfold is_trusted_domain, is_trusted_domain_in. rewrite Hd.
  cbn [rbind].
  rewrite (existsb_guard_false _ _ _ no_suffix_entry_configured).
  destruct (bool_decide (domain ∈ TRUSTED_DOMAINS)); reflexivity.
Qed.

Lemma resolved_not_the_url_entry (url : string) :
  extract_base_domain url <> Ok "https://translate.google.com/".
Proof.
  intros Hd. destruct (resolved_slash _ _ Hd eq_refl) as [_ Hb].
  discriminate Hb.
Qed.

End ConfiguredTrust.

(** X10. The entry "https://translate.google.com/" of [TRUSTED_DOMAINS] is
    never matched: no URL resolves to it.  The URL it spells resolves to
    "translate.google.com", which is not an entry, and is not trusted. *)
Theorem url_entry_is_never_matched (Itp : Interpreter) (url : string) :
  "https://translate.google.com/" ∈ TRUSTED_DOMAINS
  /\ extract_base_domain url <> Ok "https://translate.google.com/"
  /\ extract_base_domain "https://translate.google.com/" = Ok "translate.google.com"
  /\ is_trusted_domain "https://translate.google.com/" = Ok false.
Proof.
  split; [apply (bool_decide_unpack _); vm_compute; exact I|].
  split; [apply resolved_not_the_url_entry|].
  split; [reflexivity | vm_compute; reflexivity].
Qed.

(** X11. As configured, trust is exact membership: no entry of
    [TRUSTED_DOMAINS] begins with ".", so the suffix loop never matches
    and the trust check answers whether the resolved domain is an entry
    of the set.  A subdomain of an entry is trusted only if it is an
    entry itself. *)
Theorem trust_is_exact_membership (Itp : Interpreter) (url domain : string) :
  extract_base_domain url = Ok domain ->
  is_trusted_domain url = Ok (bool_decide (domain ∈ TRUSTED_DOMAINS))
  /\ (forall sub : string,
        domain = sub +:+ ".google.com" -> sub <> "" ->
        is_trusted_domain url = Ok false).
Proof.
  intros Hd. pose proof (is_trusted_domain_member _ _ Hd) as Ht.
  split; [exact Ht|].
  intros sub -> Hsub. rewrite Ht. f_equal. apply bool_decide_eq_false.
  intros Hin.
  assert (Hlen : forallb (fun t => Nat.leb (String.length t) 10
                                   || negb (Py.endswith t ".google.com"))
                         (elements TRUSTED_DOMAINS) = true)
    by (vm_compute; reflexivity).
  pose proof (gset_forallb _ _ _ Hlen Hin) as Hf. cbv beta in Hf.
  assert (Hends : Py.endswith (sub +:+ ".google.com") ".google.com" = true).
  { unfold Py.endswith.
    assert (Hl : String.length (sub +:+ ".google.com")
                 = (String.length sub + 11)%nat).
    { clear. induction sub as [|a s IH]; [reflexivity|].
      rewrite append_cons. cbn [String.length]. now rewrite IH. }
    rewrite Hl. change (String.length ".google.com") with 11%nat.
    replace (String.length sub + 11 - 11)%nat with (String.length sub) by lia.
    rewrite slice_from_append, String.eqb_refl.
    apply andb_true_iff. split; [apply Nat.leb_le; lia | reflexivity]. }
  rewrite Hends in Hf. cbn [negb] in Hf. rewrite orb_false_r in Hf.
  apply Nat.leb_le in Hf.
  assert (Hl : String.length (sub +:+ ".google.com")
               = (String.length sub + 11)%nat).
  { clear. induction sub as [|a s IH]; [reflexivity|].
    rewrite append_cons. cbn [String.length]. now rewrite IH. }
  lia.
Qed.

Lemma trust_is_exact_membership_witness :
  is_trusted_domain (Itp:=no_bracket_validation) "https://mail.google.com/inbox"
  = Ok false.
Proof.
  refine (proj2 (trust_is_exact_membership no_bracket_validation
                   "https://mail.google.com/inbox" "mail.google.com" eq_refl)
            "mail" eq_refl _).
  discriminate.
Defined.



(** X13. URLs with scheme and network location: for a URL made of a
    scheme (a letter followed by letters, digits, "+", "-" or "."),
    "://", an ASCII network location without control character, space,
    delimiter or square bracket, and then nothing or a path, query or
    fragment, the resolver returns the network location lower-cased with
    one leading "www." removed.  Scheme, path, query and fragment have no
    part in the result, and a port or user information stays in it. *)
Theorem well_formed_url_resolves (Itp : Interpreter) (sch h rest : string) :
  urllib.first_char_is urllib.ascii_alpha sch = true ->
  Py.all_chars urllib.scheme_char sch = true ->
  Py.all_chars netloc_char h = true ->
  Py.isascii h = true ->
  after_netloc rest = true ->
  extract_base_domain (sch +:+ "://" +:+ h +:+ rest)
  = Ok (without_www (Py.lower h))
  /\ is_trusted_domain (sch +:+ "://" +:+ h +:+ rest)
     = Ok (bool_decide (without_www (Py.lower h) ∈ TRUSTED_DOMAINS)).
Proof.
  intros Hfirst Hsch Hh Hascii Hrest.
  pose proof (resolve_well_formed sch h rest Hfirst Hsch Hh Hascii Hrest) as Hd.
  split; [exact Hd | exact (is_trusted_domain_member _ _ Hd)].
Qed.

Lemma well_formed_url_resolves_witness :
  extract_base_domain (Itp:=no_bracket_validation)
    ("ftp" +:+ "://" +:+ "User@WWW.Example.ORG:21" +:+ "/pub?list#top")
  = Ok "user@www.example.org:21"
  /\ is_trusted_domain (Itp:=no_bracket_validation)
       ("ftp" +:+ "://" +:+ "User@WWW.Example.ORG:21" +:+ "/pub?list#top")
     = Ok false.
Proof.
  exact (well_formed_url_resolves no_bracket_validation
           "ftp" "User@WWW.Example.ORG:21" "/pub?list#top"
           eq_refl eq_refl eq_refl eq_refl eq_refl).
Defined.

(** An entry of [TRUSTED_DOMAINS] is ASCII, and so is a network location
    that becomes one when lower-cased and relieved of a leading "www.". *)
Lemma prefix_isascii (p s : string) :
  String.prefix p s = true -> Py.isascii p = true ->
  Py.isascii (Py.slice_from (String.length p) s) = true ->
  Py.isascii s = true.
Proof.
  unfold Py.isascii. revert s.
  induction p as [|a p IH]; intros s; [auto|].
  destruct s as [|b s]; [discriminate|].
  cbn [String.prefix String.length Py.slice_from Py.all_chars].
  destruct (ascii_dec a b) as [<-|]; [|discriminate].
  intros Hp Ha Hs. apply andb_true_iff in Ha as [Ha Hq].
  now rewrite Ha, (IH s Hp Hq Hs).
Qed.

Lemma listed_host_isascii (h : string) :
  without_www (Py.lower h) ∈ TRUSTED_DOMAINS -> Py.isascii h = true.
Proof.
  intros Hin.
  assert (Hall : forallb Py.isascii (elements TRUSTED_DOMAINS) = true)
    by (vm_compute; reflexivity).
  pose proof (gset_forallb _ _ _ Hall Hin) as Ha.
  rewrite <- isascii_lower. unfold without_www in Ha.
  destruct (Py.startswith (Py.lower h) "www.") eqn:Hw; [|exact Ha].
  apply (prefix_isascii "www."); [exact Hw | reflexivity | exact Ha].
Qed.

(** X14. Reach of the whitelist: a request whose stripped URL is a
    scheme, "://", a network location without control character, space,
    delimiter or square bracket, and then nothing or a path, query or
    fragment, and whose network location, lower-cased and without one
    leading "www.", is an entry of [TRUSTED_DOMAINS] is answered "benign"
    with probability 0.01 from the whitelist, without a call of the
    scorer, whatever the scheme, the letter case of the host and the
    path, query and fragment. *)
Theorem listed_host_is_whitelisted (Itp : Interpreter) (Cfg : Config)
    (Sc : Scorer) (data : URLInput) (request : Request) (utcnow : string)
    (w : World) (sch h rest : string) :
  Py.strip (url data) = sch +:+ "://" +:+ h +:+ rest ->
  urllib.first_char_is urllib.ascii_alpha sch = true ->
  Py.all_chars urllib.scheme_char sch = true ->
  Py.all_chars netloc_char h = true ->
  after_netloc rest = true ->
  without_www (Py.lower h) ∈ TRUSTED_DOMAINS ->
  fst (predict_url data request utcnow w)
  = Ok (response_of (Py.strip (url data)) (without_www (Py.lower h)) true
          "benign" f_0_01 "whitelist" (utcnow +:+ "Z"))
  /\ scorer_calls (snd (predict_url data request utcnow w)) = scorer_calls w.
Proof.
  intros Hu Hfirst Hsch Hh Hrest Hin.
  pose proof (resolve_well_formed sch h rest Hfirst Hsch Hh
                (listed_host_isascii h Hin) Hrest) as Hd.
  rewrite <- Hu in Hd.
  pose proof (is_trusted_domain_member _ _ Hd) as Ht.
  rewrite (bool_decide_eq_true_2 _ Hin) in Ht.
  rewrite (predict_url_run data request utcnow w _ true Hd Ht).
  split; reflexivity.
Qed.

Lemma github_com_configured : without_www (Py.lower "WWW.GitHub.COM") ∈ TRUSTED_DOMAINS.
Proof. apply (bool_decide_unpack _). vm_compute. exact I. Defined.

Lemma listed_host_is_whitelisted_witness :
  fst (predict_url (Itp:=no_bracket_validation) (Cfg:=config_03_07)
         (Sc:=failing_scorer (PyExc "ValueError" "empty vocabulary"))
         (mkURLInput " javascript://WWW.GitHub.COM/evil-user/phish?x=1 ")
         (mkRequest None) "2024-01-01T00:00:00"
         (mkWorld (Sc:=failing_scorer (PyExc "ValueError" "empty vocabulary"))
            tt [] []))
  = Ok (Response.mk "javascript://WWW.GitHub.COM/evil-user/phish?x=1"
          "github.com" true "benign" f_0_01 (mkThresholds f_0_3 f_0_7) "v2.0"
          "whitelist" "2024-01-01T00:00:00Z").
Proof.
  exact (proj1 (listed_host_is_whitelisted no_bracket_validation config_03_07
           (failing_scorer (PyExc "ValueError" "empty vocabulary"))
           (mkURLInput " javascript://WWW.GitHub.COM/evil-user/phish?x=1 ")
           (mkRequest None) "2024-01-01T00:00:00"
           (mkWorld (Sc:=failing_scorer (PyExc "ValueError" "empty vocabulary"))
              tt [] [])
           "javascript" "WWW.GitHub.COM" "/evil-user/phish?x=1"
           eq_refl eq_refl eq_refl eq_refl eq_refl github_com_configured)).
Defined.

(** X15. The resolved domain is in lower case: [lower] leaves every
    result of the resolver as it is, on the parsed path and on the
    fallback path alike. *)
Theorem resolved_domain_is_lower_case (Itp : Interpreter) (url domain : string) :
  extract_base_domain url = Ok domain -> Py.lower domain = domain.
Proof.
  destruct (urllib.urlparse url) as [parsed|e] eqn:Hp.
  - rewrite (extract_base_domain_parsed _ _ Hp). unfold without_www.
    intros Heq. apply Ok_inj in Heq. subst domain.
    destruct (Py.startswith (Py.lower (netloc parsed)) "www.").
    + now rewrite lower_slice_from, lower_idem.
    + apply lower_idem.
  - rewrite (extract_base_domain_fallback _ _ Hp).
    intros Heq. apply Ok_inj in Heq. subst domain. apply lower_idem.
Qed.

Lemma resolved_domain_is_lower_case_witness :
  Py.lower "http://[::1" = "http://[::1".
Proof.
  exact (resolved_domain_is_lower_case no_bracket_validation
           "HTTP://[::1" "http://[::1" eq_refl).
Defined.

Lemma rstrip_by_last (p : ascii -> bool) (s : string) :
  last_char_is p (Py.rstrip_by p s) = false.
Proof.
  induction s as [|a s IH]; [reflexivity|].
  cbn [Py.rstrip_by].
  destruct (Py.rstrip_by p s) as [|b r].
  - destruct (p a) eqn:Ha; [reflexivity | exact Ha].
  - exact IH.
Qed.

(** X16. The URL of a response is stripped: the url field of every
    response neither begins nor ends with a white-space character, and
    stripping it again changes nothing. *)
Theorem response_url_is_stripped (Itp : Interpreter) (Cfg : Config)
    (Sc : Scorer) (data : URLInput) (request : Request) (utcnow : string)
    (w : World) (resp : Response.t) :
  fst (predict_url data request utcnow w) = Ok resp ->
  lstripped Py.isspace (Response.url resp)
  /\ last_char_is Py.isspace (Response.url resp) = false
  /\ Py.strip (Response.url resp) = Response.url resp.
Proof.
  intros Hr.
  assert (Hu : Response.url resp = Py.strip (url data)).
  { revert Hr.
    destruct (extract_base_domain_returns (Py.strip (url data))) as [domain Hd].
    destruct (is_trusted_domain_returns (Py.strip (url data))) as [trusted Ht].
    rewrite (predict_url_run data request utcnow w domain trusted Hd Ht).
    destruct trusted; cbv zeta; cbn [fst].
    - intros Heq. apply Ok_inj in Heq. now subst resp.
    - destruct (predict_proba (Py.strip (url data)) (model_state w))
        as [[p|e] st]; cbn [fst]; [|discriminate].
      intros Heq. apply Ok_inj in Heq. now subst resp. }
  rewrite Hu. split; [|split].
  - apply rstrip_by_lstripped, lstrip_by_lstripped.
  - apply rstrip_by_last.
  - apply strip_idem.
Qed.

Lemma response_url_is_stripped_witness :
  Py.strip "https://google.com/" = "https://google.com/".
Proof.
  exact (proj2 (proj2 (response_url_is_stripped no_bracket_validation
           config_03_07 (counting_scorer f_0_92)
           (mkURLInput "  https://google.com/ ") (mkRequest None)
           "2024-01-01T00:00:00"
           (mkWorld (Sc:=counting_scorer f_0_92) 0%nat [] [])
           (Response.mk "https://google.com/" "google.com" true "benign" f_0_01
              (mkThresholds f_0_3 f_0_7) "v2.0" "whitelist"
              "2024-01-01T00:00:00Z")
           eq_refl))).
Defined.
